(** * Chat with Multiple PDFs: the backend of [src/backend/app.py]

    A shallow embedding of the FastAPI backend: text extraction
    ([get_pdf_text]), chunking ([get_text_chunks]), indexing
    ([get_vector_store]) and the two handlers ([upload_pdfs],
    [ask_question]), followed by the properties of the specification
    that are settled on it.

    Python values are modelled as follows.
    - [str] is a list of Unicode code points ([pystr]); [len] is the
      number of code points, as an unbounded integer.
    - An exception is a value of [exn]; a computation that may raise
      returns a [result].
    - The handlers run in a small state monad [M] over [world]: the
      directory at [FAISS_INDEX_PATH], the process environment, and a
      journal of the calls made on the two so far.
    - Third-party services (PyPDF2, the embedding model, FAISS, the
      hosted language model) are the fields of the class [External]. *)

From Stdlib Require Import Strings.String Strings.Ascii DecimalString QArith.QArith_base.
From stdpp Require Import base numbers list option gmap.

Local Open Scope Z_scope.

(** ** Python strings *)

Abbreviation pystr := (list N).

(** A literal of the source, as code points. *)
Fixpoint str (s : string) : pystr :=
  match s with
  | EmptyString => []
  | String a s' => N_of_ascii a :: str s'
  end.

(** The newline and the double quote, for the literals that hold them. *)
Definition nl : string := String "010" EmptyString.
Definition quote : string := String "034" EmptyString.

(** [len(x)] *)
Definition len {A : Type} (l : list A) : Z := Z.of_nat (length l).

(** [bool(x)] of a sequence: empty is falsy. *)
Definition truthy {A : Type} (l : list A) : bool :=
  match l with
  | [] => false
  | _ :: _ => true
  end.

(** [str.isspace] of one code point, after the table of CPython. *)
Definition isspace (c : N) : bool :=
  (((9 <=? c) && (c <=? 13)) || ((28 <=? c) && (c <=? 32))
   || (c =? 133) || (c =? 160) || (c =? 5760)
   || ((8192 <=? c) && (c <=? 8202))
   || (c =? 8232) || (c =? 8233) || (c =? 8239) || (c =? 8287)
   || (c =? 12288))%N.

Fixpoint lstrip (s : pystr) : pystr :=
  match s with
  | [] => []
  | c :: s' => if isspace c then lstrip s' else s
  end.

Fixpoint rstrip (s : pystr) : pystr :=
  match s with
  | [] => []
  | c :: s' =>
      match rstrip s' with
      | [] => if isspace c then [] else [c]
      | r => c :: r
      end
  end.

(** [s.strip()] *)
Definition strip (s : pystr) : pystr := rstrip (lstrip s).

(** [s.startswith(p)] *)
Fixpoint startswith (p s : pystr) : bool :=
  match p, s with
  | [], _ => true
  | _ :: _, [] => false
  | a :: p', b :: s' => (a =? b)%N && startswith p' s'
  end.

(** [re.search(re.escape(p), s)]: the literal [p] occurs in [s]. *)
Fixpoint contains (p s : pystr) : bool :=
  match s with
  | [] => startswith p []
  | _ :: s' => startswith p s || contains p s'
  end.

(** [separator.join(docs)] *)
Fixpoint join (separator : pystr) (docs : list pystr) : pystr :=
  match docs with
  | [] => []
  | [d] => d
  | d :: ds => d ++ separator ++ join separator ds
  end.

(** Decimal rendering of a status code, as [str(int)] gives it. *)
Definition str_of_int (n : Z) : pystr :=
  str (DecimalString.NilZero.string_of_int (Z.to_int n)).

(** ** Exceptions and results *)

Inductive exn : Type :=
| ValueError (msg : pystr)
| IndexError
| HTTPException (status_code : Z) (detail : pystr)
| LibraryError (msg : pystr).

(** [str(e)], as interpolated by the f-strings of the handlers.  Starlette
    renders an [HTTPException] as its status code, a colon and its detail. *)
Definition str_exn (e : exn) : pystr :=
  match e with
  | ValueError msg => msg
  | IndexError => str "list index out of range"
  | HTTPException status_code detail =>
      str_of_int status_code ++ str ": " ++ detail
  | LibraryError msg => msg
  end.

Inductive result (A : Type) : Type :=
| Ok (a : A)
| Raise (e : exn).
Arguments Ok {A} a.
Arguments Raise {A} e.

#[global] Instance result_ret : MRet result := fun A a => Ok a.
#[global] Instance result_bind : MBind result := fun A B k r =>
  match r with
  | Ok a => k a
  | Raise e => Raise e
  end.

Definition option_list {A : Type} (o : option A) : list A :=
  match o with
  | Some a => [a]
  | None => []
  end.

(** ** The text splitter

    [get_text_chunks] only builds a [RecursiveCharacterTextSplitter] and
    calls its [split_text]; the class belongs to the third-party package
    langchain and is absent from the sources of this repository.  The
    definitions of this part stand for it. *)

(** Modelled from the spec: the class [RecursiveCharacterTextSplitter],
    missing from the sources.  Section 4.2 describes the chunker as a
    sliding window of bounded size that prefers to break at paragraph,
    line and word boundaries before falling back to a hard character
    cut; the definitions below spell that out the way the [split_text]
    of the class does it, with the options [get_text_chunks] leaves at
    their defaults: the separators are the blank line, the newline, the
    space and the empty string, taken literally; a separator is kept at
    the start of the piece after it; chunks are stripped of surrounding
    whitespace; lengths are counted by [len]. *)
Record TextSplitter : Type := {
  chunk_size : Z;
  chunk_overlap : Z;
  separators : list pystr
}.

(** Modelled from the spec: the default separators of the missing class:
    paragraph, line, word, character. *)
Definition default_separators : list pystr :=
  [str (nl ++ nl); str nl; str " "; str ""].

(** Modelled from the spec: the constructor of the missing class, which
    refuses an overlap larger than the chunk size. *)
Definition RecursiveCharacterTextSplitter (size overlap : Z)
  : result TextSplitter :=
  if overlap >? size then
    Raise (ValueError (str "Got a larger chunk overlap than chunk size."))
  else
    Ok {| chunk_size := size; chunk_overlap := overlap;
          separators := default_separators |}.

(** Modelled from the spec: [_join_docs] of the missing class: join,
    strip, and drop a text that is empty afterwards. *)
Definition join_docs (separator : pystr) (docs : list pystr) : option pystr :=
  let text := strip (join separator docs) in
  if truthy text then Some text else None.

(** Modelled from the spec: the splitting done by
    [_split_text_with_regex] of the missing package at the occurrences of a
    non-empty literal separator, each occurrence kept at the start of the
    piece that follows it.  [skip] counts the characters of a matched
    separator still to be passed over; [cur] is the current piece,
    reversed. *)
Fixpoint split_keeping (separator : pystr) (skip : nat) (cur : pystr)
    (s : pystr) : list pystr :=
  match s with
  | [] => [reverse cur]
  | c :: s' =>
      match skip with
      | S k => split_keeping separator k (c :: cur) s'
      | O =>
          if startswith separator s then
            reverse cur :: split_keeping separator (length separator - 1) [c] s'
          else split_keeping separator 0 (c :: cur) s'
      end
  end.

(** Modelled from the spec: [_split_text_with_regex] of the missing
    package, called with [keep_separator] true: with the empty separator
    the text is cut into its characters; empty pieces are dropped. *)
Definition split_text_with_regex (text separator : pystr) : list pystr :=
  let splits :=
    if truthy separator then split_keeping separator 0 [] text
    else map (fun c => [c]) text in
  List.filter truthy splits.

(** Modelled from the spec: the inner [while] of [_merge_splits] of the
    missing class: pop pieces from the front of
    [current_doc] while it is longer than the overlap, or still too long
    for the next piece of length [l]. *)
Fixpoint pop_front (ts : TextSplitter) (separator_len l : Z)
    (current_doc : list pystr) (total : Z) : result (list pystr * Z) :=
  let again :=
    (total >? chunk_overlap ts)
    || ((total + l + (if truthy current_doc then separator_len else 0)
           >? chunk_size ts)
        && (total >? 0)) in
  match current_doc with
  | [] => if again then Raise IndexError else Ok ([], total)
  | d0 :: rest =>
      if again then
        pop_front ts separator_len l rest
          (total - (len d0 + (if 1 <? len current_doc then separator_len else 0)))
      else Ok (current_doc, total)
  end.

(** Modelled from the spec: the [for] loop of [_merge_splits] of the
    missing class, with its three variables. *)
Fixpoint merge_loop (ts : TextSplitter) (separator : pystr)
    (splits docs current_doc : list pystr) (total : Z) : result (list pystr) :=
  let separator_len := len separator in
  match splits with
  | [] => Ok (docs ++ option_list (join_docs separator current_doc))
  | d :: splits' =>
      let l := len d in
      '(docs, current_doc, total) ←
        (if total + l + (if truthy current_doc then separator_len else 0)
              >? chunk_size ts
         then
           if truthy current_doc then
             let docs := docs ++ option_list (join_docs separator current_doc) in
             '(current_doc, total) ←
               pop_front ts separator_len l current_doc total;
             Ok (docs, current_doc, total)
           else Ok (docs, current_doc, total)
         else Ok (docs, current_doc, total));
      let current_doc := current_doc ++ [d] in
      merge_loop ts separator splits' docs current_doc
        (total + (l + (if 1 <? len current_doc then separator_len else 0)))
  end.

(** Modelled from the spec: [_merge_splits] of the missing class, the
    sliding window over small pieces. *)
Definition merge_splits (ts : TextSplitter) (splits : list pystr)
    (separator : pystr) : result (list pystr) :=
  merge_loop ts separator splits [] [] 0.

(** Modelled from the spec: the flush of the pending small pieces in
    [_split_text] of the missing class: when there are any, they are
    merged and the result is appended to the final chunks. *)
Definition flush_good (ts : TextSplitter) (good final_chunks : list pystr)
  : result (list pystr) :=
  if truthy good then
    merged_text ← merge_splits ts good [];
    Ok (final_chunks ++ merged_text)
  else Ok final_chunks.

(** Modelled from the spec: the loop over the pieces in [_split_text] of
    the missing class.  [deeper] is the
    recursive call on the remaining separators, absent when there are
    none left. *)
Fixpoint split_loop (ts : TextSplitter)
    (deeper : option (pystr -> result (list pystr)))
    (splits good final_chunks : list pystr) : result (list pystr) :=
  match splits with
  | [] => flush_good ts good final_chunks
  | s :: splits' =>
      if len s <? chunk_size ts then
        split_loop ts deeper splits' (good ++ [s]) final_chunks
      else
        final_chunks ← flush_good ts good final_chunks;
        final_chunks ←
          match deeper with
          | None => Ok (final_chunks ++ [s])
          | Some split_deeper =>
              other_info ← split_deeper s;
              Ok (final_chunks ++ other_info)
          end;
        split_loop ts deeper splits' [] final_chunks
  end.

(** Modelled from the spec: [_split_text] of the missing class.  The
    first separator that is empty
    or occurs in the text is used, and the ones after it are handed to
    the recursive calls; [last_separator] is the last separator of the
    call, used when the scan finds none. *)
Fixpoint split_text_rec (ts : TextSplitter) (last_separator : pystr)
    (seps : list pystr) (text : pystr) : result (list pystr) :=
  match seps with
  | [] =>
      split_loop ts None (split_text_with_regex text last_separator) [] []
  | s :: new_separators =>
      if truthy s then
        if contains s text then
          split_loop ts
            (if truthy new_separators then
               Some (split_text_rec ts (List.last new_separators [])
                       new_separators)
             else None)
            (split_text_with_regex text s) [] []
        else split_text_rec ts last_separator new_separators text
      else split_loop ts None (split_text_with_regex text s) [] []
  end.

(** Modelled from the spec: [split_text] of the missing class. *)
Definition split_text (ts : TextSplitter) (text : pystr)
  : result (list pystr) :=
  split_text_rec ts (List.last (separators ts) []) (separators ts) text.

(** ** External services and the state of the process *)

Definition bytes := list Byte.byte.

(** The embedding object: [embed_documents] maps texts to vectors, or
    raises. *)
Record Embeddings (vector : Type) : Type := {
  embed_documents : list pystr -> result (list vector)
}.
Arguments embed_documents {vector} _ _.

(** The arguments [ask_question] gives to [ChatGoogleGenerativeAI].  The
    literal [0.3] is kept as the decimal fraction it denotes. *)
Record ChatModel : Type := {
  model : pystr;
  google_api_key : pystr;
  temperature : Q
}.

(** What the handlers call and do not define.
    - [PdfReader b]: opening buffer [b] raises, or gives the pages; a
      page either raises (when it is fetched or its text is extracted) or
      yields its text, which may be [None].
    - [HuggingFaceEmbeddings name]: loading the embedding model.
    - [save_local_fault s]: the exception [save_local] raises for the
      store [s], if any.
    - [save_local_residue s]: what a save of [s] that raises leaves at the
      path: [None] when it fails before it has created the directory, and
      otherwise what the directory holds when it gives up ([save_local]
      creates the directory first and writes into it afterwards).
    - [load_local_fault s]: the exception [load_local] raises although
      the store is there, if any.
    - [retrieve]: the retriever of [as_retriever()], giving the contents
      of the documents it selects.
    - [llm_invoke]: the hosted model, from the formatted prompt to the
      answer. *)
Class External : Type := {
  vector : Type;
  PdfReader : bytes -> result (list (result (option pystr)));
  HuggingFaceEmbeddings : pystr -> result (Embeddings vector);
  save_local_fault : list (pystr * vector) -> option exn;
  save_local_residue :
    list (pystr * vector) -> option (list (pystr * vector));
  load_local_fault : list (pystr * vector) -> option exn;
  retrieve : Embeddings vector -> list (pystr * vector) -> pystr ->
             result (list pystr);
  llm_invoke : ChatModel -> pystr -> result pystr
}.

(** A persisted index: the chunks with their vectors, in insertion order. *)
Definition store `{External} : Type := list (pystr * vector).

(** The calls on the environment and on the index path, which the journal
    records.  The calls that only compute on values (the reading of the
    uploaded files, the PDF reader, the embedding model, the retriever and
    the hosted model) go through [lift] and are not journalled. *)
Inductive call `{External} : Type :=
| call_load_dotenv
| call_getenv (key : pystr)
| call_path_exists
| call_rmtree
| call_save_local (s : store)
| call_load_local.

(** [faiss_index] is what the directory [FAISS_INDEX_PATH] holds, [None]
    when the path does not exist; [dotenv] is the content of the [.env]
    file. *)
Record world `{External} : Type := {
  faiss_index : option store;
  environ : gmap pystr pystr;
  dotenv : gmap pystr pystr;
  journal : list call
}.

Definition M `{External} (A : Type) : Type := world -> result A * world.

Definition ret `{External} {A : Type} (a : A) : M A := fun w => (Ok a, w).

Definition raise `{External} {A : Type} (e : exn) : M A :=
  fun w => (Raise e, w).

Definition bind `{External} {A B : Type} (m : M A) (k : A -> M B) : M B :=
  fun w =>
    match m w with
    | (Ok a, w') => k a w'
    | (Raise e, w') => (Raise e, w')
    end.

(** A pure computation that may raise, run inside [M]. *)
Definition lift `{External} {A : Type} (r : result A) : M A :=
  fun w => (r, w).

(** [try: body / except Exception as e: handler(e)] *)
Definition try_except `{External} {A : Type} (body : M A)
    (handler : exn -> M A) : M A :=
  fun w =>
    match body w with
    | (Ok a, w') => (Ok a, w')
    | (Raise e, w') => handler e w'
    end.

Declare Scope M_scope.
Delimit Scope M_scope with M.
Notation "x <~ m ;; k" := (bind m (fun x => k))
  (at level 100, m at next level, right associativity) : M_scope.
Notation "m ;;; k" := (bind m (fun _ => k))
  (at level 100, right associativity) : M_scope.

Definition log_call `{External} (c : call) (w : world) : world :=
  {| faiss_index := faiss_index w; environ := environ w;
     dotenv := dotenv w; journal := journal w ++ [c] |}.

Definition set_index `{External} (i : option store) (w : world) : world :=
  {| faiss_index := i; environ := environ w;
     dotenv := dotenv w; journal := journal w |}.

(** [load_dotenv()]: variables of the [.env] file are added to the
    environment; those already set keep their value. *)
Definition load_dotenv `{External} : M bool :=
  fun w =>
    (Ok true,
     {| faiss_index := faiss_index w; environ := environ w ∪ dotenv w;
        dotenv := dotenv w; journal := journal w ++ [call_load_dotenv] |}).

(** [os.getenv(key)] *)
Definition os_getenv `{External} (key : pystr) : M (option pystr) :=
  fun w => (Ok (environ w !! key), log_call (call_getenv key) w).

(** [os.path.exists(FAISS_INDEX_PATH)] *)
Definition os_path_exists `{External} : M bool :=
  fun w => (Ok (bool_decide (is_Some (faiss_index w))), log_call call_path_exists w).

(** [shutil.rmtree(FAISS_INDEX_PATH)] *)
Definition shutil_rmtree `{External} : M unit :=
  fun w =>
    match faiss_index w with
    | Some _ => (Ok tt, set_index None (log_call call_rmtree w))
    | None =>
        (Raise (LibraryError (str "No such file or directory: faiss_index")),
         log_call call_rmtree w)
    end.

(** [FAISS.from_texts(text_chunks, embedding=embeddings)]: embed the
    texts and pair each with its vector.  The library sizes the index by
    the first vector, which raises when there is none, and refuses a
    number of vectors other than the number of texts. *)
Definition FAISS_from_texts `{External} (texts : list pystr)
    (embedding : Embeddings vector) : result store :=
  vectors ← embed_documents embedding texts;
  if negb (truthy vectors) then Raise IndexError
  else if bool_decide (length vectors = length texts) then
    Ok (zip texts vectors)
  else
    Raise (ValueError
             (str "documents and embeddings expected to be equal length but len(documents)="
                ++ str_of_int (len texts) ++ str " and len(embeddings)="
                ++ str_of_int (len vectors))).

(** [vector_store.save_local(FAISS_INDEX_PATH)].  A save that raises
    leaves at the path what [save_local_residue] says: the path as it was,
    when nothing was created, or the directory as far as it was written. *)
Definition FAISS_save_local `{External} (vector_store : store) : M unit :=
  fun w =>
    match save_local_fault vector_store with
    | Some e =>
        (Raise e,
         match save_local_residue vector_store with
         | Some residue =>
             set_index (Some residue) (log_call (call_save_local vector_store) w)
         | None => log_call (call_save_local vector_store) w
         end)
    | None =>
        (Ok tt,
         set_index (Some vector_store) (log_call (call_save_local vector_store) w))
    end.

(** [FAISS.load_local(FAISS_INDEX_PATH, embeddings, ...)] *)
Definition FAISS_load_local `{External} (embeddings : Embeddings vector)
  : M store :=
  fun w =>
    (match faiss_index w with
     | None => Raise (LibraryError (str "could not open faiss_index/index.faiss"))
     | Some s =>
         match load_local_fault s with
         | Some e => Raise e
         | None => Ok s
         end
     end,
     log_call call_load_local w).

(** ** The application: [src/backend/app.py] *)

Definition FAISS_INDEX_PATH : pystr := str "faiss_index".

Section App.
Context `{External}.
Local Open Scope M_scope.

(** *** Helper functions *)

(** The [for page in pdf_reader.pages] loop; [text] is the variable the
    loop appends to, kept when a page raises. *)
Fixpoint extract_pages (pages : list (result (option pystr))) (text : pystr)
  : result unit * pystr :=
  match pages with
  | [] => (Ok tt, text)
  | Raise e :: _ => (Raise e, text)
  | Ok page_text :: pages' =>
      extract_pages pages'
        (match page_text with
         | Some t => if truthy t then text ++ t else text
         | None => text
         end)
  end.

(** The body of the [try] for one buffer. *)
Definition read_pdf (pdf_bytes : bytes) (text : pystr) : result unit * pystr :=
  match PdfReader pdf_bytes with
  | Raise e => (Raise e, text)
  | Ok pages => extract_pages pages text
  end.

(** The [for pdf_bytes in pdf_docs] loop: whatever the [try] does, the
    [except] logs and goes on with the next buffer. *)
Fixpoint read_pdfs (pdf_docs : list bytes) (text : pystr) : pystr :=
  match pdf_docs with
  | [] => text
  | pdf_bytes :: pdf_docs' =>
      let '(_, text) := read_pdf pdf_bytes text in
      read_pdfs pdf_docs' text
  end.

Definition get_pdf_text (pdf_docs : list bytes) : result pystr :=
  Ok (read_pdfs pdf_docs []).

Definition get_text_chunks (text : pystr) : result (list pystr) :=
  text_splitter ← RecursiveCharacterTextSplitter 10000 1000;
  split_text text_splitter text.

Definition embedding_model_name : pystr :=
  str "sentence-transformers/all-MiniLM-L6-v2".

Definition get_vector_store (text_chunks : list pystr) : M unit :=
  if negb (truthy text_chunks) then
    raise (ValueError (str "Text chunks are empty, cannot create vector store."))
  else
    embeddings <~ lift (HuggingFaceEmbeddings embedding_model_name);;
    index_exists <~ os_path_exists;;
    (if index_exists : bool then shutil_rmtree else ret tt);;;
    vector_store <~ lift (FAISS_from_texts text_chunks embeddings);;
    FAISS_save_local vector_store.

(** *** Responses *)

(** A JSON object with string values. *)
Definition json := list (pystr * pystr).

Record response : Type := {
  status_code : Z;
  content : json
}.

(** What FastAPI sends for the outcome of a handler: the returned object
    with status 200, the status and detail of an [HTTPException], and
    status 500 for any other exception (its plain body is written here as
    a detail). *)
Definition respond (r : result json) : response :=
  match r with
  | Ok body => {| status_code := 200; content := body |}
  | Raise (HTTPException status detail) =>
      {| status_code := status; content := [(str "detail", detail)] |}
  | Raise _ =>
      {| status_code := 500;
         content := [(str "detail", str "Internal Server Error")] |}
  end.

(** *** [POST /upload] *)

(** An uploaded file: what [await file.read()] gives. *)
Record UploadFile : Type := {
  read : result bytes
}.

(** [[await file.read() for file in files]] *)
Fixpoint read_files (files : list UploadFile) : result (list bytes) :=
  match files with
  | [] => Ok []
  | file :: files' =>
      b ← read file;
      bs ← read_files files';
      Ok (b :: bs)
  end.

Definition upload_pdfs (files : list UploadFile) : M json :=
  if negb (truthy files) then
    raise (HTTPException 400 (str "No files were uploaded."))
  else
    try_except
      (pdf_docs_bytes <~ lift (read_files files);;
       raw_text <~ lift (get_pdf_text pdf_docs_bytes);;
       if negb (truthy raw_text) then
         raise (HTTPException 400
                  (str "Could not extract any text from the provided PDFs."))
       else
         text_chunks <~ lift (get_text_chunks raw_text);;
         get_vector_store text_chunks;;;
         ret [(str "status", str "success");
              (str "message",
               str "Documents processed successfully. You can now ask a question.")])
      (fun e =>
         raise (HTTPException 500
                  (str "An error occurred during processing: " ++ str_exn e))).

(** *** [POST /ask] *)

Record QuestionRequest : Type := {
  question : pystr
}.

Definition refusal_sentence : pystr :=
  str "The answer is not available in the provided documents.".

Definition prompt_template : pystr :=
  str (nl
    ++ "        Answer the question as detailed as possible from the provided context." ++ nl
    ++ "        Make sure to provide all the details. If the answer is not in the provided context," ++ nl
    ++ "        just say, " ++ quote
    ++ "The answer is not available in the provided documents." ++ quote ++ nl
    ++ "        Do not provide a speculative or incorrect answer." ++ nl
    ++ nl
    ++ "        Context:" ++ nl
    ++ "        {context}" ++ nl
    ++ nl
    ++ "        Question:" ++ nl
    ++ "        {input}" ++ nl
    ++ nl
    ++ "        Answer:" ++ nl
    ++ "        ")%string.

(** The value of a template variable; a missing one is a [KeyError]. *)
Fixpoint lookup_var (vars : list (pystr * pystr)) (name : pystr)
  : result pystr :=
  match vars with
  | [] => Raise (LibraryError (str "KeyError: " ++ name))
  | (k, v) :: vars' =>
      if bool_decide (k = name) then Ok v else lookup_var vars' name
  end.

(** Formatting of a template: each [{name}] is replaced by the value of
    [name].  [inside] holds the reversed name being read between the
    braces. *)
Fixpoint format_template (vars : list (pystr * pystr))
    (inside : option pystr) (template : pystr) : result pystr :=
  match template with
  | [] =>
      match inside with
      | None => Ok []
      | Some _ => Raise (ValueError (str "expected a closing brace before end of string"))
      end
  | c :: template' =>
      match inside with
      | None =>
          if (c =? 123)%N then format_template vars (Some []) template'
          else
            rest ← format_template vars None template';
            Ok (c :: rest)
      | Some name =>
          if (c =? 125)%N then
            v ← lookup_var vars (reverse name);
            rest ← format_template vars None template';
            Ok (v ++ rest)
          else format_template vars (Some (c :: name)) template'
      end
  end.

(** The answer of [retrieval_chain.invoke] on the question: the
    retrieved documents are joined by blank lines into the context, the
    prompt is formatted and sent to the model. *)
Definition retrieval_chain_invoke (embeddings : Embeddings vector)
    (db : store) (llm : ChatModel) (template input : pystr) : result pystr :=
  docs ← retrieve embeddings db input;
  prompt ← format_template
             [(str "context", join (str (nl ++ nl)) docs); (str "input", input)]
             None template;
  llm_invoke llm prompt.

Definition ask_question (request : QuestionRequest) : M json :=
  let user_question := question request in
  if negb (truthy user_question) then
    raise (HTTPException 400 (str "No question was provided."))
  else
    index_exists <~ os_path_exists;;
    if negb index_exists then
      raise (HTTPException 400
               (str "No documents have been processed yet. Please upload files first."))
    else
      try_except
        (api_key <~ os_getenv (str "GOOGLE_API_KEY");;
         match api_key with
         | Some api_key =>
             if negb (truthy api_key) then
               raise (ValueError
                  (str "GOOGLE_API_KEY not found in .env file. Please check your .env file."))
             else
               embeddings <~ lift (HuggingFaceEmbeddings embedding_model_name);;
               db <~ FAISS_load_local embeddings;;
               let llm := {| model := str "models/gemini-2.5-flash";
                             google_api_key := api_key;
                             temperature := 3 # 10 |} in
               answer <~ lift (retrieval_chain_invoke embeddings db llm
                                 prompt_template user_question);;
               ret [(str "answer", answer)]
         | None =>
             raise (ValueError
                (str "GOOGLE_API_KEY not found in .env file. Please check your .env file."))
         end)
        (fun e =>
           raise (HTTPException 500
                    (str "An internal error occurred: " ++ str_exn e))).

(** *** [GET /] *)

Definition read_root : json :=
  [(str "message", str "Welcome to the Chat with PDFs Backend!")].

(** *** Start of the process *)

(** The module body: [load_dotenv()] and the construction of the
    application, which never raises. *)
Definition startup : M unit :=
  load_dotenv;;; ret tt.

(** A request served in a world: the response and the world after it. *)
Definition serve (handler : M json) (w : world) : response * world :=
  let '(r, w') := handler w in (respond r, w').

End App.

(** ** Notions used to state the properties *)

(** A text made of whitespace only. *)
Definition blank (s : pystr) : Prop := Forall (fun c => isspace c = true) s.

(** What [_join_docs] makes of one window of text: the window stripped,
    dropped when nothing is left. *)
Definition stripped (w : pystr) : option pystr :=
  let t := strip w in if truthy t then Some t else None.

(** [sliding_windows overlap ws text]: the windows [ws] cover [text] from
    left to right, each one sharing at most its last [overlap] characters
    with the text covered by the windows after it. *)
Inductive sliding_windows (overlap : Z) : list pystr -> pystr -> Prop :=
| sliding_done : sliding_windows overlap [] []
| sliding_step (pre ov rest : pystr) (ws : list pystr) :
    len ov <= overlap ->
    sliding_windows overlap ws (ov ++ rest) ->
    sliding_windows overlap ((pre ++ ov) :: ws) (pre ++ ov ++ rest).

(** The specification shared by [split_text_rec] and its recursive calls:
    the chunks are the stripped windows of a covering of the text. *)
Definition splits_into_windows (ts : TextSplitter)
    (f : pystr -> result (list pystr)) : Prop :=
  forall text, exists ws,
    f text = Ok (omap stripped ws) /\
    sliding_windows (chunk_overlap ts) ws text /\
    Forall (fun w : pystr => len w <= chunk_size ts) ws.

(** The text of the pages read before the first page that raises. *)
Fixpoint extracted_before_failure (pages : list (result (option pystr)))
  : pystr :=
  match pages with
  | [] => []
  | Raise _ :: _ => []
  | Ok page_text :: pages' =>
      default [] page_text ++ extracted_before_failure pages'
  end.

(** The text of all the pages, when none raises. *)
Fixpoint all_pages_text (pages : list (result (option pystr)))
  : option pystr :=
  match pages with
  | [] => Some []
  | Raise _ :: _ => None
  | Ok page_text :: pages' =>
      rest ← all_pages_text pages';
      Some (default [] page_text ++ rest)
  end.

(** The text of all the pages that do not raise. *)
Fixpoint extractable_text (pages : list (result (option pystr))) : pystr :=
  match pages with
  | [] => []
  | Raise _ :: pages' => extractable_text pages'
  | Ok page_text :: pages' => default [] page_text ++ extractable_text pages'
  end.

(** What a buffer contributes to the extracted text. *)
Definition buffer_text `{External} (pdf_bytes : bytes) : pystr :=
  match PdfReader pdf_bytes with
  | Raise _ => []
  | Ok pages => extracted_before_failure pages
  end.

(** The contribution of a buffer if one that fails, at opening or at any
    page, were skipped as a whole. *)
Definition buffer_text_or_skip `{External} (pdf_bytes : bytes) : pystr :=
  match PdfReader pdf_bytes with
  | Raise _ => []
  | Ok pages => default [] (all_pages_text pages)
  end.

(** [calls_only P m]: running [m] appends to the journal, and only calls
    that satisfy [P]. *)
Definition calls_only `{External} {A : Type} (P : call -> Prop) (m : M A)
  : Prop :=
  forall w, exists added,
    journal (m w).2 = journal w ++ added /\ Forall P added.

(** [keeps_index m]: running [m] leaves the persisted index as it was. *)
Definition keeps_index `{External} {A : Type} (m : M A) : Prop :=
  forall w, faiss_index (m w).2 = faiss_index w.

(** The calls that only read: none of them creates, deletes or replaces
    the index. *)
Definition read_only `{External} (c : call) : Prop :=
  match c with
  | call_getenv _ | call_path_exists | call_load_local => True
  | call_load_dotenv | call_rmtree | call_save_local _ => False
  end.

Definition is_getenv `{External} (c : call) : Prop :=
  match c with
  | call_getenv _ => True
  | _ => False
  end.

Definition http_error (status : Z) (detail : string) : response :=
  {| status_code := status; content := [(str "detail", str detail)] |}.

(** The parts of the prompt template around its two placeholders. *)
Definition prompt_before_context : pystr := take 331 prompt_template.
Definition prompt_before_input : pystr := take 28 (drop 340 prompt_template).
Definition prompt_after_input : pystr := drop 375 prompt_template.

Definition instruction_sentence : pystr :=
  str "Answer the question as detailed as possible from the provided context.".

(** The contribution of a buffer if every page that can be read were
    read, those after a failing page included. *)
Definition buffer_text_extractable `{External} (pdf_bytes : bytes) : pystr :=
  match PdfReader pdf_bytes with
  | Raise _ => []
  | Ok pages => extractable_text pages
  end.

(** ** Concrete services, for the examples *)

(** A reader that tells buffers apart by their first byte: an empty
    buffer does not open; [x00] opens on one page without text; [x01] on
    three pages whose second raises; anything else on two pages of text. *)
Definition example_reader (b : bytes) : result (list (result (option pystr))) :=
  match b with
  | [] => Raise (LibraryError (str "Cannot read an empty file"))
  | Byte.x00 :: _ => Ok [Ok None]
  | Byte.x01 :: _ =>
      Ok [Ok (Some (str "A")); Raise (LibraryError (str "corrupt page"));
          Ok (Some (str "B"))]
  | _ => Ok [Ok (Some (str "Hello")); Ok (Some (str " world"))]
  end.

(** Services that embed every text to [tt], retrieve the first four
    documents and answer with the prompt itself; [save_fault] is what
    [save_local] raises, if anything, and then it leaves nothing. *)
Definition example_services (save_fault : option exn) : External := {|
  vector := unit;
  PdfReader := example_reader;
  HuggingFaceEmbeddings := fun _ =>
    Ok {| embed_documents := fun texts => Ok (map (fun _ => tt) texts) |};
  save_local_fault := fun _ => save_fault;
  save_local_residue := fun _ => None;
  load_local_fault := fun _ => None;
  retrieve := fun _ db _ => Ok (take 4 (map fst db));
  llm_invoke := fun _ prompt => Ok prompt
|}.

Definition example_world (E : External) (index : option (@store E))
    (env : gmap pystr pystr) : @world E :=
  {| faiss_index := index; environ := env; dotenv := ∅; journal := [] |}.

(** ** Notions used for the further properties *)

(** The object [upload_pdfs] returns on success. *)
Definition upload_success_body : json :=
  [(str "status", str "success");
   (str "message",
    str "Documents processed successfully. You can now ask a question.")].

(** The response to an [HTTPException]. *)
Definition detail_response (status : Z) (detail : pystr) : response :=
  {| status_code := status; content := [(str "detail", detail)] |}.

(** The response of [upload_pdfs] to an exception caught by its [except]. *)
Definition upload_failure (e : exn) : response :=
  detail_response 500 (str "An error occurred during processing: " ++ str_exn e).

(** The response of [ask_question] to an exception caught by its [except]. *)
Definition ask_failure (e : exn) : response :=
  detail_response 500 (str "An internal error occurred: " ++ str_exn e).

(** The argument [ask_question] builds for the model from the key. *)
Definition gemini (api_key : pystr) : ChatModel :=
  {| model := str "models/gemini-2.5-flash"; google_api_key := api_key;
     temperature := 3 # 10 |}.

Definition GOOGLE_API_KEY : pystr := str "GOOGLE_API_KEY".

(** [c] occurs in [text] as a run of consecutive characters. *)
Definition substring (c text : pystr) : Prop :=
  exists before after, text = before ++ c ++ after.

(** What the [try] of [ask_question] computes from the value of the key,
    the index found at the path and the question, the journal left
    aside. *)
Definition answer_from `{External} (api_key : option pystr) (db : store)
    (input : pystr) : result pystr :=
  match api_key with
  | Some api_key =>
      if truthy api_key then
        embeddings ← HuggingFaceEmbeddings embedding_model_name;
        _ ← match load_local_fault db with
            | Some e => Raise e
            | None => Ok tt
            end;
        retrieval_chain_invoke embeddings db (gemini api_key) prompt_template
          input
      else Raise (ValueError
             (str "GOOGLE_API_KEY not found in .env file. Please check your .env file."))
  | None => Raise (ValueError
             (str "GOOGLE_API_KEY not found in .env file. Please check your .env file."))
  end.

(** Services put together from their parts, for the examples. *)
Definition services_of
    (reader : bytes -> result (list (result (option pystr))))
    (embeddings : result (Embeddings unit)) (save_fault : option exn)
    (retrieved : result (list pystr)) (reply : pystr -> result pystr)
  : External := {|
  vector := unit;
  PdfReader := reader;
  HuggingFaceEmbeddings := fun _ => embeddings;
  save_local_fault := fun _ => save_fault;
  save_local_residue := fun _ => None;
  load_local_fault := fun _ => None;
  retrieve := fun _ _ _ => retrieved;
  llm_invoke := fun _ prompt => reply prompt
|}.

(** An embedding that runs out of memory on the one text [str "huge"] and
    maps the texts of any other list to [tt]. *)
Definition picky_embeddings : Embeddings unit :=
  {| embed_documents := fun texts =>
       if bool_decide (texts = [str "huge"]) then
         Raise (LibraryError (str "out of memory"))
       else Ok (map (fun _ => tt) texts) |}.

(** Services whose [save_local] always raises for lack of space, after it
    has created the directory: the path is left holding an empty
    directory, which [load_local] cannot open. *)
Definition full_disk_services : External := {|
  vector := unit;
  PdfReader := example_reader;
  HuggingFaceEmbeddings := fun _ => Ok picky_embeddings;
  save_local_fault := fun _ =>
    Some (LibraryError (str "No space left on device"));
  save_local_residue := fun _ => Some [];
  load_local_fault := fun s =>
    if truthy s then None
    else Some (LibraryError (str "could not open faiss_index/index.faiss"));
  retrieve := fun _ db _ => Ok (take 4 (map fst db));
  llm_invoke := fun _ prompt => Ok prompt
|}.

(** The step of lines 67 and 68 of [get_vector_store]: remove what is at
    the index path, if anything. *)
Definition remove_existing_index `{External} : M unit :=
  bind os_path_exists
    (fun index_exists => if index_exists : bool then shutil_rmtree else ret tt).

(** A reader for which every buffer is one page of two spaces. *)
Definition blank_page_reader (b : bytes)
  : result (list (result (option pystr))) :=
  Ok [Ok (Some (str "  "))].

Definition unit_embeddings : Embeddings unit :=
  {| embed_documents := fun texts => Ok (map (fun _ => tt) texts) |}.

(** An uploaded file that [example_reader] opens on two pages of text. *)
Definition text_file : UploadFile := {| read := Ok [Byte.x02] |}.

(** * Properties *)

(** ** Lengths and truth values *)

Lemma len_nil {A} : len (@nil A) = 0.
Proof. reflexivity. Qed.

Lemma len_cons {A} (x : A) l : len (x :: l) = 1 + len l.
Proof. unfold len. cbn [length]. lia. Qed.

Lemma len_app {A} (l1 l2 : list A) : len (l1 ++ l2) = len l1 + len l2.
Proof. unfold len. rewrite length_app. lia. Qed.

Lemma len_nonneg {A} (l : list A) : 0 <= len l.
Proof. unfold len. lia. Qed.

Lemma truthy_false {A} (l : list A) : truthy l = false <-> l = [].
Proof. destruct l; cbn; split; congruence. Qed.

Lemma truthy_true {A} (l : list A) : truthy l = true <-> l <> [].
Proof. destruct l; cbn; split; congruence. Qed.

(** *** Stripping *)

Lemma lstrip_blank s : blank s -> lstrip s = [].
Proof.
  induction 1 as [|c s Hc _ IH]; [done|]. cbn. by rewrite Hc.
Qed.

Lemma lstrip_app_blank a b : blank a -> lstrip (a ++ b) = lstrip b.
Proof.
  induction 1 as [|c a Hc _ IH]; [done|]. cbn. by rewrite Hc.
Qed.

Lemma lstrip_app_not_blank a b : ~ blank a -> lstrip (a ++ b) = lstrip a ++ b.
Proof.
  induction a as [|c a IH]; intros Hnb.
  - destruct Hnb. constructor.
  - cbn. destruct (isspace c) eqn:Hc; [|done].
    apply IH. intros Ha. apply Hnb. by constructor.
Qed.

Lemma lstrip_nil s : lstrip s = [] <-> blank s.
Proof.
  split; [|apply lstrip_blank].
  induction s as [|c s IH]; [constructor|].
  cbn. destruct (isspace c) eqn:Hc; [|done].
  intros Hs. constructor; [done|]. by apply IH.
Qed.

Lemma lstrip_length s : (length (lstrip s) <= length s)%nat.
Proof.
  induction s as [|c s IH]; [done|]. cbn. destruct (isspace c); cbn; lia.
Qed.

Lemma rstrip_nil s : rstrip s = [] <-> blank s.
Proof.
  induction s as [|c s IH]; [split; [constructor|done]|].
  cbn. destruct (rstrip s) as [|r rs] eqn:Hr.
  - destruct (isspace c) eqn:Hc.
    + split; [|done]. intros _. constructor; [done|]. by apply IH.
    + split; [done|]. intros Hb. inversion Hb; congruence.
  - split; [done|]. intros Hb. inversion Hb as [|? ? _ Hs]; subst.
    apply IH in Hs. done.
Qed.

Lemma rstrip_app_blank a b : blank b -> rstrip (a ++ b) = rstrip a.
Proof.
  intros Hb. induction a as [|c a IH]; cbn.
  - by apply rstrip_nil.
  - by rewrite IH.
Qed.

Lemma rstrip_length s : (length (rstrip s) <= length s)%nat.
Proof.
  induction s as [|c s IH]; [done|]. cbn.
  destruct (rstrip s); [destruct (isspace c)|]; cbn in *; lia.
Qed.

Lemma strip_nil s : strip s = [] <-> blank s.
Proof.
  unfold strip. split.
  - intros Hs. apply rstrip_nil in Hs.
    destruct (decide (blank s)) as [|Hn]; [done|].
    exfalso. apply Hn. apply lstrip_nil.
    induction s as [|c s IH]; [done|].
    cbn in *. destruct (isspace c) eqn:Hc.
    + apply IH; [done|]. intros Hb. apply Hn. by constructor.
    + inversion Hs; congruence.
  - intros Hs. by rewrite lstrip_blank.
Qed.

Lemma strip_app_blank_l a b : blank a -> strip (a ++ b) = strip b.
Proof. intros Ha. unfold strip. by rewrite lstrip_app_blank. Qed.

Lemma strip_app_blank_r a b : blank b -> strip (a ++ b) = strip a.
Proof.
  intros Hb. unfold strip. destruct (decide (blank a)) as [Ha|Ha].
  - rewrite lstrip_app_blank, (lstrip_blank a), (lstrip_blank b) by done. done.
  - rewrite lstrip_app_not_blank by done. by apply rstrip_app_blank.
Qed.

Lemma strip_len s : len (strip s) <= len s.
Proof.
  unfold strip, len. pose proof (rstrip_length (lstrip s)).
  pose proof (lstrip_length s). lia.
Qed.

Lemma stripped_None w : stripped w = None <-> blank w.
Proof.
  unfold stripped. rewrite <- strip_nil.
  destruct (strip w); cbn; split; congruence.
Qed.

Lemma stripped_len w c : stripped w = Some c -> len c <= len w.
Proof.
  unfold stripped. destruct (truthy (strip w)); [|done].
  intros [= <-]. apply strip_len.
Qed.

(** ** Windows over a text *)

Lemma sliding_windows_app ov ws1 ws2 t1 t2 :
  sliding_windows ov ws1 t1 -> sliding_windows ov ws2 t2 ->
  sliding_windows ov (ws1 ++ ws2) (t1 ++ t2).
Proof.
  intros H1 H2. induction H1 as [|pre o rest ws Ho _ IH]; [done|].
  cbn. rewrite <- !(assoc_L (++)). constructor; [done|].
  by rewrite (assoc_L (++)).
Qed.

Lemma sliding_windows_one ov w : 0 <= ov -> sliding_windows ov [w] w.
Proof.
  intros Hov. pose proof (sliding_step ov w [] [] []) as Hs. cbn in Hs.
  rewrite !app_nil_r in Hs. apply Hs; [done|constructor].
Qed.

Lemma sliding_windows_blank ov ws t :
  sliding_windows ov ws t -> Forall blank ws -> blank t.
Proof.
  induction 1 as [|pre o rest ws _ _ IH]; intros Hb; [constructor|].
  inversion Hb as [|? ? Hw Hws]; subst.
  specialize (IH Hws). unfold blank in *.
  rewrite Forall_app in Hw. rewrite Forall_app. by split; [apply Hw|].
Qed.

Lemma omap_stripped_nil ws : omap stripped ws = [] -> Forall blank ws.
Proof.
  induction ws as [|w ws IH]; [constructor|].
  cbn. destruct (stripped w) eqn:Hw; [done|].
  intros Hws. constructor; [by apply stripped_None|by apply IH].
Qed.

Lemma omap_stripped_bound cs (ws : list pystr) :
  Forall (fun w : pystr => len w <= cs) ws ->
  Forall (fun c : pystr => len c <= cs) (omap stripped ws).
Proof.
  induction 1 as [|w ws Hw _ IH]; [constructor|].
  cbn. destruct (stripped w) as [c|] eqn:Hc; [|done].
  constructor; [|done]. apply stripped_len in Hc. lia.
Qed.

Lemma sliding_windows_one_chunk ov cs (ws : list pystr) (t : pystr) :
  0 <= cs ->
  sliding_windows ov ws t ->
  Forall (fun w : pystr => len w <= cs) ws ->
  (length (omap stripped ws) <= 1)%nat ->
  len (strip t) <= cs.
Proof.
  intros Hcs Hs. induction Hs as [|pre o rest ws _ Hs IH]; intros Hb Hn.
  - done.
  - inversion Hb as [|? ? Hw Hws]; subst. cbn in Hn.
    destruct (stripped (pre ++ o)) as [c|] eqn:Hc.
    + cbn in Hn. assert (omap stripped ws = []) as Hnil.
      { destruct (omap stripped ws); [done|cbn in Hn; lia]. }
      apply omap_stripped_nil in Hnil.
      pose proof (sliding_windows_blank _ _ _ Hs Hnil) as Hrest.
      unfold blank in Hrest. rewrite Forall_app in Hrest.
      rewrite (assoc_L (++)), strip_app_blank_r by apply Hrest.
      pose proof (strip_len (pre ++ o)). lia.
    + apply stripped_None in Hc. unfold blank in Hc.
      rewrite Forall_app in Hc.
      rewrite strip_app_blank_l by apply Hc. by apply IH.
Qed.

(** *** Joining with the empty separator *)
Lemma join_nil docs : join [] docs = concat docs.
Proof.
  induction docs as [|d [|d' ds] IH]; [done|cbn; by rewrite app_nil_r|].
  change (join [] (d :: d' :: ds)) with (d ++ [] ++ join [] (d' :: ds)).
  by rewrite IH.
Qed.

Lemma join_docs_nil docs : join_docs [] docs = stripped (concat docs).
Proof. unfold join_docs, stripped. by rewrite join_nil. Qed.

Lemma len_concat_cons (d : pystr) ds : len (concat (d :: ds)) = len d + len (concat ds).
Proof. cbn. apply len_app. Qed.

(** *** The sliding window of [_merge_splits] *)

Section Merge.
Variable ts : TextSplitter.
Hypothesis overlap_nonneg : 0 <= chunk_overlap ts.

Lemma pop_front_spec l (cur : list pystr) :
  exists popped cur',
    pop_front ts 0 l cur (len (concat cur)) = Ok (cur', len (concat cur')) /\
    cur = popped ++ cur' /\
    len (concat cur') <= chunk_overlap ts /\
    (len (concat cur') + l <= chunk_size ts \/ len (concat cur') = 0).
Proof.
  induction cur as [|d0 rest IH].
  - exists [], []. cbn. rewrite len_nil.
    replace (0 >? chunk_overlap ts) with false by lia.
    cbn. rewrite andb_false_r. repeat split; auto.
  - cbn [pop_front].
    destruct ((len (concat (d0 :: rest)) >? chunk_overlap ts)
              || ((len (concat (d0 :: rest)) + l
                   + (if truthy (d0 :: rest) then 0 else 0) >? chunk_size ts)
                  && (len (concat (d0 :: rest)) >? 0))) eqn:Hagain.
    + destruct IH as (popped & cur' & Hpop & -> & Hov & Hfit).
      exists (d0 :: popped), cur'.
      replace (len (concat (d0 :: popped ++ cur')) -
               (len d0 + (if 1 <? len (d0 :: popped ++ cur') then 0 else 0)))
        with (len (concat (popped ++ cur'))).
      2:{ rewrite len_concat_cons. destruct (1 <? _); lia. }
      by rewrite Hpop.
    + exists [], (d0 :: rest). cbn [truthy] in Hagain.
      apply orb_false_iff in Hagain as [Hov Hfit].
      apply andb_false_iff in Hfit.
      repeat split; [lia|]. destruct Hfit; [left|right]; [lia|].
      pose proof (len_nonneg (concat (d0 :: rest))). lia.
Qed.

Lemma merge_loop_windows (splits : list pystr) : forall docs cur : list pystr,
  len (concat cur) <= chunk_size ts ->
  Forall (fun d : pystr => len d <= chunk_size ts) splits ->
  exists ws,
    merge_loop ts [] splits docs cur (len (concat cur))
      = Ok (docs ++ omap stripped ws) /\
    sliding_windows (chunk_overlap ts) ws (concat cur ++ concat splits) /\
    Forall (fun w : pystr => len w <= chunk_size ts) ws.
Proof.
  induction splits as [|d splits IH]; intros docs cur Hcur Hsplits.
  - exists [concat cur]. cbn. rewrite app_nil_r, join_docs_nil.
    split; [by destruct (stripped _)|].
    split; [by apply sliding_windows_one|]. by constructor.
  - inversion Hsplits as [|? ? Hd Hrest]; subst.
    cbn [merge_loop]. rewrite len_nil.
    assert (forall c : list pystr,
              len (concat c) + (len d + (if 1 <? len (c ++ [d]) then 0 else 0))
              = len (concat (c ++ [d]))) as Htot.
    { intros c. destruct (1 <? _); rewrite concat_app, len_app; cbn;
        rewrite app_nil_r; lia. }
    assert (forall c : list pystr,
              len (concat (c ++ [d])) = len (concat c) + len d) as Hsnoc.
    { intros c. rewrite concat_app, len_app. cbn. by rewrite app_nil_r. }
    destruct (truthy cur) eqn:Hne; cbv iota; rewrite Z.add_0_r;
      destruct (len (concat cur) + len d >? chunk_size ts) eqn:Hover.
    + destruct (pop_front_spec (len d) cur)
        as (popped & cur' & Hpop & -> & Hov & Hfit).
      rewrite Hpop. cbn [mbind result_bind]. rewrite Htot.
      destruct (IH (docs ++ option_list (join_docs [] (popped ++ cur')))
                  (cur' ++ [d])) as (ws & Hm & Hs & Hb); [|done|].
      { rewrite Hsnoc. lia. }
      exists (concat (popped ++ cur') :: ws).
      rewrite Hm, join_docs_nil. split.
      { cbn. rewrite <- (assoc_L (++)). by destruct (stripped _). }
      split; [|by constructor].
      rewrite concat_app. cbn [concat].
      rewrite <- !(assoc_L (++)). constructor; [done|].
      revert Hs. rewrite concat_app. cbn. by rewrite app_nil_r, <- (assoc_L (++)).
    + cbn [mbind result_bind]. rewrite Htot.
      destruct (IH docs (cur ++ [d])) as (ws & Hm & Hs & Hb); [|done|].
      { rewrite Hsnoc. lia. }
      exists ws. split; [done|]. split; [|done].
      revert Hs. rewrite concat_app. cbn. by rewrite app_nil_r, <- (assoc_L (++)).
    + apply truthy_false in Hne as ->. change (len (concat [])) with 0 in Hover. lia.
    + cbn [mbind result_bind]. rewrite Htot.
      destruct (IH docs (cur ++ [d])) as (ws & Hm & Hs & Hb); [|done|].
      { rewrite Hsnoc. lia. }
      exists ws. split; [done|]. split; [|done].
      revert Hs. rewrite concat_app. cbn. by rewrite app_nil_r, <- (assoc_L (++)).
Qed.

End Merge.

(** ** The text splitter *)

Lemma split_keeping_concat separator s : forall skip cur,
  concat (split_keeping separator skip cur s) = reverse cur ++ s.
Proof.
  induction s as [|c s IH]; intros skip cur.
  - cbn. by rewrite !app_nil_r.
  - cbn [split_keeping]. destruct skip as [|k].
    + destruct (startswith separator (c :: s)).
      * cbn [concat]. rewrite IH. done.
      * rewrite IH, reverse_cons, <- (assoc_L (++)). done.
    + rewrite IH, reverse_cons, <- (assoc_L (++)). done.
Qed.

Lemma concat_filter_truthy (l : list pystr) :
  concat (List.filter truthy l) = concat l.
Proof.
  induction l as [|[|c s] l IH]; [done|done|]. cbn. by rewrite IH.
Qed.

Lemma concat_singletons (s : pystr) : concat (map (fun c => [c]) s) = s.
Proof. induction s as [|c s IH]; [done|]. cbn. by rewrite IH. Qed.

Lemma split_text_with_regex_concat text separator :
  concat (split_text_with_regex text separator) = text.
Proof.
  unfold split_text_with_regex. rewrite concat_filter_truthy.
  destruct (truthy separator).
  - apply split_keeping_concat.
  - apply concat_singletons.
Qed.

Lemma split_chars_short cs text :
  1 < cs ->
  Forall (fun s : pystr => len s < cs) (split_text_with_regex text []).
Proof.
  intros Hcs. unfold split_text_with_regex. cbn [truthy].
  induction text as [|c s IH]; [constructor|].
  cbn. constructor; [|done]. unfold len. cbn. lia.
Qed.

Section Split.
Variable ts : TextSplitter.
Hypothesis overlap_nonneg : 0 <= chunk_overlap ts.
Hypothesis size_large : 1 < chunk_size ts.

Lemma flush_good_windows (good final_chunks : list pystr) :
  Forall (fun s : pystr => len s < chunk_size ts) good ->
  exists ws,
    flush_good ts good final_chunks = Ok (final_chunks ++ omap stripped ws) /\
    sliding_windows (chunk_overlap ts) ws (concat good) /\
    Forall (fun w : pystr => len w <= chunk_size ts) ws.
Proof.
  intros Hgood. unfold flush_good. destruct (truthy good) eqn:Hne.
  - destruct (merge_loop_windows ts overlap_nonneg good [] [])
      as (ws & Hm & Hs & Hb).
    { cbn. rewrite len_nil. lia. }
    { eapply Forall_impl; [done|]. cbn. lia. }
    exists ws. unfold merge_splits. cbn in Hm. rewrite len_nil in Hm.
    rewrite Hm. done.
  - apply truthy_false in Hne as ->. exists []. rewrite app_nil_r.
    split; [done|]. split; constructor.
Qed.

Lemma split_loop_windows deeper (splits : list pystr) :
  match deeper with
  | Some f => splits_into_windows ts f
  | None => Forall (fun s : pystr => len s < chunk_size ts) splits
  end ->
  forall (good wsf : list pystr) (done_text : pystr),
  Forall (fun s : pystr => len s < chunk_size ts) good ->
  sliding_windows (chunk_overlap ts) wsf done_text ->
  Forall (fun w : pystr => len w <= chunk_size ts) wsf ->
  exists ws,
    split_loop ts deeper splits good (omap stripped wsf) = Ok (omap stripped ws) /\
    sliding_windows (chunk_overlap ts) ws
      (done_text ++ concat good ++ concat splits) /\
    Forall (fun w : pystr => len w <= chunk_size ts) ws.
Proof.
  induction splits as [|s splits IH]; intros Hdeeper good wsf done_text Hgood Hwsf Hb.
  - cbn [split_loop].
    destruct (flush_good_windows good (omap stripped wsf) Hgood)
      as (wsg & Hf & Hs & Hbg).
    exists (wsf ++ wsg). rewrite Hf, omap_app, app_nil_r.
    split; [done|]. split; [by apply sliding_windows_app|by apply Forall_app].
  - cbn [split_loop]. destruct (len s <? chunk_size ts) eqn:Hlen.
    + destruct (IH) with (good := good ++ [s]) (wsf := wsf) (done_text := done_text)
        as (ws & Hl & Hs & Hbs); [| |done|done|].
      { destruct deeper; [done|]. by inversion Hdeeper. }
      { apply Forall_app. split; [done|]. constructor; [lia|constructor]. }
      exists ws. split; [done|]. split; [|done].
      revert Hs. rewrite concat_app. cbn. by rewrite app_nil_r, <- (assoc_L (++)).
    + destruct deeper as [f|]; [|inversion Hdeeper; lia].
      destruct (flush_good_windows good (omap stripped wsf) Hgood)
        as (wsg & Hf & Hsg & Hbg).
      destruct (Hdeeper s) as (wss & Hfs & Hss & Hbss).
      rewrite Hf, Hfs. cbn [mbind result_bind].
      rewrite <- !omap_app.
      destruct (IH) with (good := @nil pystr) (wsf := (wsf ++ wsg) ++ wss)
                         (done_text := (done_text ++ concat good) ++ s)
        as (ws & Hl & Hs & Hbs); [done|constructor| | |].
      { apply sliding_windows_app; [apply sliding_windows_app|]; done. }
      { rewrite !Forall_app. done. }
      exists ws. split; [done|]. split; [|done].
      revert Hs. cbn. by rewrite <- !(assoc_L (++)).
Qed.

Lemma split_text_rec_windows (seps : list pystr) :
  [] ∈ seps ->
  forall last_separator,
  splits_into_windows ts (split_text_rec ts last_separator seps).
Proof.
  induction seps as [|s new_separators IH]; intros Hin last_separator text.
  - by apply elem_of_nil in Hin.
  - cbn [split_text_rec]. destruct (truthy s) eqn:Hs.
    + assert ([] ∈ new_separators) as Hin'.
      { apply elem_of_cons in Hin as [<-|]; done. }
      destruct (contains s text); [|by apply IH].
      assert (truthy new_separators = true) as ->.
      { destruct new_separators; [by apply elem_of_nil in Hin'|done]. }
      destruct (split_loop_windows
                  (Some (split_text_rec ts (List.last new_separators []) new_separators))
                  (split_text_with_regex text s)) with
        (good := @nil pystr) (wsf := @nil pystr) (done_text := @nil N)
        as (ws & Hl & Hw & Hb); [by apply IH|constructor|constructor|constructor|].
      rewrite split_text_with_regex_concat in Hw.
      exists ws. split; [done|]. split; [exact Hw|done].
    + apply truthy_false in Hs as ->.
      destruct (split_loop_windows None (split_text_with_regex text [])) with
        (good := @nil pystr) (wsf := @nil pystr) (done_text := @nil N)
        as (ws & Hl & Hw & Hb);
        [by apply split_chars_short|constructor|constructor|constructor|].
      rewrite split_text_with_regex_concat in Hw.
      exists ws. split; [done|]. split; [exact Hw|done].
Qed.

End Split.

(** The chunks of [get_text_chunks] are the stripped windows of a
    covering of the text. *)
Lemma get_text_chunks_windows text :
  exists ws,
    get_text_chunks text = Ok (omap stripped ws) /\
    sliding_windows 1000 ws text /\
    Forall (fun w : pystr => len w <= 10000) ws.
Proof.
  unfold get_text_chunks. cbn [RecursiveCharacterTextSplitter].
  change (1000 >? 10000) with false. cbn [mbind result_bind].
  unfold split_text.
  apply (split_text_rec_windows
           {| chunk_size := 10000; chunk_overlap := 1000;
              separators := default_separators |}); cbn; [lia|lia|].
  unfold default_separators. set_solver.
Qed.

Lemma sliding_windows_all_blank ov (ws : list pystr) (t : pystr) :
  sliding_windows ov ws t -> blank t -> Forall blank ws.
Proof.
  induction 1 as [|pre o rest ws _ _ IH]; intros Hb; [constructor|].
  unfold blank in *. rewrite !Forall_app in Hb. destruct Hb as (Hpre & Ho & Hrest).
  constructor; [by apply Forall_app|]. apply IH. by apply Forall_app.
Qed.

Lemma omap_stripped_blank (ws : list pystr) :
  Forall blank ws -> omap stripped ws = [].
Proof.
  induction 1 as [|w ws Hw _ IH]; [done|].
  cbn. apply stripped_None in Hw. by rewrite Hw.
Qed.

Lemma get_text_chunks_blank text :
  blank text -> get_text_chunks text = Ok [].
Proof.
  intros Hb. destruct (get_text_chunks_windows text) as (ws & -> & Hs & _).
  f_equal. apply omap_stripped_blank. by eapply sliding_windows_all_blank.
Qed.

Section Fits.
Variable ts : TextSplitter.

Lemma merge_loop_fits (splits : list pystr) : forall docs cur : list pystr,
  len (concat cur) + len (concat splits) <= chunk_size ts ->
  merge_loop ts [] splits docs cur (len (concat cur))
    = Ok (docs ++ option_list (stripped (concat (cur ++ splits)))).
Proof.
  induction splits as [|d splits IH]; intros docs cur Hfit.
  - cbn [merge_loop]. by rewrite join_docs_nil, app_nil_r.
  - cbn [merge_loop]. rewrite len_nil. rewrite len_concat_cons in Hfit.
    pose proof (len_nonneg (concat splits)).
    replace (len (concat cur) + len d + (if truthy cur then 0 else 0)
               >? chunk_size ts) with false
      by (destruct (truthy cur); lia).
    cbn [mbind result_bind].
    replace (len (concat cur) + (len d + (if 1 <? len (cur ++ [d]) then 0 else 0)))
      with (len (concat (cur ++ [d]))).
    2:{ destruct (1 <? _); rewrite concat_app, len_app; cbn;
          rewrite app_nil_r; lia. }
    rewrite IH, <- (assoc_L (++)); [done|].
    rewrite concat_app, len_app. cbn. rewrite app_nil_r. lia.
Qed.

Lemma split_loop_all_short deeper (splits : list pystr) :
  forall good final_chunks : list pystr,
  Forall (fun s : pystr => len s < chunk_size ts) splits ->
  split_loop ts deeper splits good final_chunks
    = flush_good ts (good ++ splits) final_chunks.
Proof.
  induction splits as [|s splits IH]; intros good final_chunks Hs.
  - cbn. by rewrite app_nil_r.
  - inversion Hs as [|? ? Hlt Hrest]; subst. cbn [split_loop].
    replace (len s <? chunk_size ts) with true by lia.
    rewrite IH, <- (assoc_L (++)); done.
Qed.

End Fits.

(** A text without blank line, newline or space that fits in one chunk
    comes back as that one chunk. *)
Lemma get_text_chunks_one_window (text : pystr) :
  contains (str (nl ++ nl)) text = false ->
  contains (str nl) text = false ->
  contains (str " ") text = false ->
  len text <= 10000 ->
  get_text_chunks text = Ok (option_list (stripped text)).
Proof.
  intros H1 H2 H3 Hlen.
  change (get_text_chunks text) with
    (split_text {| chunk_size := 10000; chunk_overlap := 1000;
                   separators := default_separators |} text).
  unfold split_text, default_separators.
  cbn [separators split_text_rec].
  change (truthy (str (nl ++ nl))) with true.
  change (truthy (str nl)) with true.
  change (truthy (str " ")) with true. change (truthy (str "")) with false.
  cbv iota.
  rewrite H1, H2, H3.
  rewrite split_loop_all_short by (apply split_chars_short; cbn; lia).
  unfold flush_good. cbn [app].
  destruct (truthy (split_text_with_regex text (str ""))) eqn:Hne.
  - unfold merge_splits.
    rewrite (merge_loop_fits _ (split_text_with_regex text (str "")) [] []).
    + cbn [app mbind result_bind]. by rewrite split_text_with_regex_concat.
    + rewrite split_text_with_regex_concat. cbn. rewrite len_nil. lia.
  - apply truthy_false in Hne.
    pose proof (split_text_with_regex_concat text (str "")) as Hc.
    rewrite Hne in Hc. cbn in Hc. by subst.
Qed.

Lemma contains_replicate c (p : pystr) n a :
  (c =? a)%N = false -> contains (c :: p) (replicate n a) = false.
Proof.
  intros Hc. induction n as [|n IH]; [done|].
  cbn. by rewrite Hc, IH.
Qed.

Lemma rstrip_replicate n a : isspace a = false -> rstrip (replicate n a) = replicate n a.
Proof.
  intros Ha. induction n as [|n IH]; [done|].
  cbn. rewrite IH. destruct (replicate n a); [by rewrite Ha|done].
Qed.

Lemma strip_replicate n a : isspace a = false -> strip (replicate n a) = replicate n a.
Proof.
  intros Ha. unfold strip. destruct n; [done|].
  cbn. rewrite Ha. by apply (rstrip_replicate (S n)).
Qed.

Lemma len_replicate {A} n (a : A) : len (replicate n a) = Z.of_nat n.
Proof. unfold len. by rewrite length_replicate. Qed.

Lemma blank_replicate n a : isspace a = true -> blank (replicate n a).
Proof. intros Ha. by apply Forall_replicate. Qed.


(** ** Chunking (C3) *)

(** C3, as amended.  The chunks [get_text_chunks] returns are, in order,
    the stripped and non-empty forms of windows that cover the text from
    left to right; every window, hence every chunk, has at most 10000
    characters; each window shares at most its last 1000 characters with
    the text covered by the windows after it; and a text whose stripped
    form is longer than 10000 characters gives at least two chunks. *)
Theorem get_text_chunks_sliding_windows (text : pystr) :
  exists ws chunks,
    get_text_chunks text = Ok chunks /\
    chunks = omap stripped ws /\
    sliding_windows 1000 ws text /\
    Forall (fun w : pystr => len w <= 10000) ws /\
    Forall (fun c : pystr => len c <= 10000) chunks /\
    (10000 < len (strip text) -> (2 <= length chunks)%nat).
Proof.
  destruct (get_text_chunks_windows text) as (ws & Hg & Hs & Hb).
  exists ws, (omap stripped ws). repeat split; try done.
  - by apply omap_stripped_bound.
  - intros Hlong.
    destruct (decide (length (omap stripped ws) <= 1)%nat) as [Hone|]; [|lia].
    pose proof (sliding_windows_one_chunk 1000 10000 ws text) as Hc.
    specialize (Hc ltac:(lia) Hs Hb Hone). lia.
Qed.

(** An instance of C3: 10001 letters give at least two chunks. *)
Lemma get_text_chunks_sliding_windows_witness :
  exists chunks,
    get_text_chunks (replicate (Z.to_nat 10001) 97%N) = Ok chunks /\
    (2 <= length chunks)%nat.
Proof.
  destruct (get_text_chunks_sliding_windows (replicate (Z.to_nat 10001) 97%N))
    as (ws & chunks & Hg & _ & _ & _ & _ & Hn).
  exists chunks. split; [exact Hg|]. apply Hn. vm_compute. reflexivity.
Defined.

(** C3, as stated, fails at the chunk size itself: a text of exactly
    10000 letters comes back as one chunk; and 20000 spaces give no chunk
    at all, since chunks are stripped. *)
Lemma get_text_chunks_one_chunk_at_chunk_size :
  let text := replicate (Z.to_nat 10000) 97%N in
  let spaces := replicate (Z.to_nat 20000) 32%N in
  (10000 <= len text /\ get_text_chunks text = Ok [text]) /\
  (10000 <= len spaces /\ get_text_chunks spaces = Ok []).
Proof.
  cbv zeta. rewrite !len_replicate. split; split; try lia.
  - rewrite get_text_chunks_one_window.
    + unfold stripped. by rewrite strip_replicate.
    + by apply contains_replicate.
    + by apply contains_replicate.
    + by apply contains_replicate.
    + rewrite len_replicate. lia.
  - apply get_text_chunks_blank. by apply blank_replicate.
Qed.

(** ** Text extraction (C4) *)

Section Extraction.
Context `{External}.

(** *** Extraction *)

Lemma extract_pages_text pages : forall text,
  (extract_pages pages text).2 = text ++ extracted_before_failure pages.
Proof.
  induction pages as [|[page_text|e] pages IH]; intros text; cbn.
  - by rewrite app_nil_r.
  - rewrite IH. destruct page_text as [[|c t]|]; cbn;
      by rewrite ?app_nil_r, <- ?(assoc_L (++)).
  - by rewrite app_nil_r.
Qed.

Lemma read_pdf_text pdf_bytes text :
  (read_pdf pdf_bytes text).2 = text ++ buffer_text pdf_bytes.
Proof.
  unfold read_pdf, buffer_text. destruct (PdfReader pdf_bytes).
  - apply extract_pages_text.
  - cbn. by rewrite app_nil_r.
Qed.

Lemma read_pdfs_text pdf_docs : forall text,
  read_pdfs pdf_docs text = text ++ concat (map buffer_text pdf_docs).
Proof.
  induction pdf_docs as [|b pdf_docs IH]; intros text; cbn.
  - by rewrite app_nil_r.
  - pose proof (read_pdf_text b text) as Hb.
    destruct (read_pdf b text) as [r text']. cbn in Hb. subst.
    by rewrite IH, <- (assoc_L (++)).
Qed.

Lemma all_pages_text_extracted pages t :
  all_pages_text pages = Some t -> extracted_before_failure pages = t.
Proof.
  revert t. induction pages as [|[page_text|e] pages IH]; intros t; cbn.
  - by intros [= <-].
  - destruct (all_pages_text pages) as [rest|]; [|done].
    cbn. intros [= <-]. by rewrite (IH rest).
  - done.
Qed.

(** C4, as amended.  [get_pdf_text] never raises, and returns the
    concatenation, in the order of the buffers, of what each buffer
    contributes: nothing when the buffer does not open, and otherwise the
    text of its pages, in page order, up to the first page that raises;
    the text read before that page is kept, the rest of the buffer is
    skipped. *)
Theorem get_pdf_text_concat (pdf_docs : list bytes) :
  get_pdf_text pdf_docs = Ok (concat (map buffer_text pdf_docs)).
Proof. unfold get_pdf_text. by rewrite read_pdfs_text. Qed.

(** A buffer none of whose pages raises contributes all its text. *)
Lemma buffer_text_all_pages (b : bytes) pages t :
  PdfReader b = Ok pages -> all_pages_text pages = Some t ->
  buffer_text b = t /\ buffer_text_or_skip b = t.
Proof.
  intros Hb Ht. unfold buffer_text, buffer_text_or_skip. rewrite Hb, Ht.
  split; [by apply all_pages_text_extracted|done].
Qed.

End Extraction.

(** C4, as stated, fails on a buffer that opens and whose second page
    raises: the text of the first page is returned, so the buffer is not
    skipped, and the text of the third page is not, so the result is not
    all the extractable text either. *)
Lemma get_pdf_text_keeps_pages_before_failure :
  let E := example_services None in
  let pdf_docs := [[Byte.x01]] in
  @get_pdf_text E pdf_docs = Ok (str "A") /\
  concat (map (@buffer_text_or_skip E) pdf_docs) = [] /\
  concat (map (@buffer_text_extractable E) pdf_docs) = str "AB" /\
  @get_pdf_text E pdf_docs <> Ok (concat (map (@buffer_text_or_skip E) pdf_docs)) /\
  @get_pdf_text E pdf_docs
    <> Ok (concat (map (@buffer_text_extractable E) pdf_docs)).
Proof.
  cbv zeta. split; [reflexivity|]. split; [reflexivity|].
  split; [reflexivity|]. split; discriminate.
Qed.

(** ** The calls a computation makes *)

Lemma startswith_app (p a b : pystr) :
  startswith p a = true -> startswith p (a ++ b) = true.
Proof.
  revert a. induction p as [|c p IH]; intros [|d a]; cbn; try done.
  intros [Hc Hp]%andb_true_iff. by rewrite Hc, IH.
Qed.

Lemma contains_app_l (p a b : pystr) :
  contains p a = true -> contains p (a ++ b) = true.
Proof.
  induction a as [|d a IH]; cbn.
  - destruct p; [|done]. intros _. by destruct b.
  - intros [Hs|Hc]%orb_true_iff.
    + change (d :: a ++ b) with ((d :: a) ++ b).
      by rewrite startswith_app.
    + rewrite IH by done. apply orb_true_r.
Qed.

(** The prompt sent to the model: the template with the context and the
    question in the place of its two placeholders. *)
Lemma format_prompt_template (context input : pystr) :
  format_template [(str "context", context); (str "input", input)] None
    prompt_template
  = Ok (prompt_before_context ++ context ++ prompt_before_input ++ input
          ++ prompt_after_input).
Proof. vm_compute. reflexivity. Qed.

Lemma prompt_has_refusal_sentence :
  contains refusal_sentence prompt_before_context = true.
Proof. vm_compute. reflexivity. Qed.

Lemma prompt_has_instruction :
  contains instruction_sentence prompt_before_context = true.
Proof. vm_compute. reflexivity. Qed.

Section Frames.
Context `{External}.

Lemma environ_log_call c w : environ (log_call c w) = environ w.
Proof. reflexivity. Qed.

Lemma faiss_index_log_call c w : faiss_index (log_call c w) = faiss_index w.
Proof. reflexivity. Qed.

Lemma calls_only_ret {A} P (a : A) : calls_only P (ret a).
Proof. intros w. exists []. by rewrite app_nil_r. Qed.

Lemma calls_only_raise {A} P e : calls_only P (@raise _ A e).
Proof. intros w. exists []. by rewrite app_nil_r. Qed.

Lemma calls_only_lift {A} P (r : result A) : calls_only P (lift r).
Proof. intros w. exists []. by rewrite app_nil_r. Qed.

Lemma calls_only_bind {A B} P (m : M A) (k : A -> M B) :
  calls_only P m -> (forall a, calls_only P (k a)) -> calls_only P (bind m k).
Proof.
  intros Hm Hk w. unfold bind. destruct (Hm w) as (added & Hj & Hadded).
  destruct (m w) as [[a|e] w1]; cbn in Hj.
  - destruct (Hk a w1) as (added' & Hj' & Hadded').
    exists (added ++ added'). rewrite Hj', Hj, (assoc_L (++)).
    split; [done|]. by apply Forall_app.
  - by exists added.
Qed.

Lemma calls_only_try_except {A} P (body : M A) handler :
  calls_only P body -> (forall e, calls_only P (handler e)) ->
  calls_only P (try_except body handler).
Proof.
  intros Hm Hk w. unfold try_except. destruct (Hm w) as (added & Hj & Hadded).
  destruct (body w) as [[a|e] w1]; cbn in Hj.
  - by exists added.
  - destruct (Hk e w1) as (added' & Hj' & Hadded').
    exists (added ++ added'). rewrite Hj', Hj, (assoc_L (++)).
    split; [done|]. by apply Forall_app.
Qed.

Lemma calls_only_path_exists (P : call -> Prop) :
  P call_path_exists -> calls_only P os_path_exists.
Proof. intros HP w. exists [call_path_exists]. split; [done|]. by constructor. Qed.

Lemma calls_only_getenv (P : call -> Prop) key :
  P (call_getenv key) -> calls_only P (os_getenv key).
Proof. intros HP w. exists [call_getenv key]. split; [done|]. by constructor. Qed.

Lemma calls_only_rmtree (P : call -> Prop) :
  P call_rmtree -> calls_only P shutil_rmtree.
Proof.
  intros HP w. exists [call_rmtree]. unfold shutil_rmtree.
  split; [by destruct (faiss_index w)|]. by constructor.
Qed.

Lemma calls_only_save_local (P : call -> Prop) s :
  P (call_save_local s) -> calls_only P (FAISS_save_local s).
Proof.
  intros HP w. exists [call_save_local s]. unfold FAISS_save_local.
  split; [by destruct (save_local_fault s), (save_local_residue s)|].
  by constructor.
Qed.

Lemma calls_only_load_local (P : call -> Prop) embeddings :
  P call_load_local -> calls_only P (FAISS_load_local embeddings).
Proof. intros HP w. exists [call_load_local]. split; [done|]. by constructor. Qed.

Lemma calls_only_load_dotenv (P : call -> Prop) :
  P call_load_dotenv -> calls_only P load_dotenv.
Proof. intros HP w. exists [call_load_dotenv]. split; [done|]. by constructor. Qed.

Lemma keeps_index_ret {A} (a : A) : keeps_index (ret a).
Proof. done. Qed.

Lemma keeps_index_raise {A} e : keeps_index (@raise _ A e).
Proof. done. Qed.

Lemma keeps_index_lift {A} (r : result A) : keeps_index (lift r).
Proof. done. Qed.

Lemma keeps_index_bind {A B} (m : M A) (k : A -> M B) :
  keeps_index m -> (forall a, keeps_index (k a)) -> keeps_index (bind m k).
Proof.
  intros Hm Hk w. unfold bind. specialize (Hm w).
  destruct (m w) as [[a|e] w1]; cbn in Hm; [|done].
  by rewrite Hk.
Qed.

Lemma keeps_index_try_except {A} (body : M A) handler :
  keeps_index body -> (forall e, keeps_index (handler e)) ->
  keeps_index (try_except body handler).
Proof.
  intros Hm Hk w. unfold try_except. specialize (Hm w).
  destruct (body w) as [[a|e] w1]; cbn in Hm; [done|].
  by rewrite Hk.
Qed.

Lemma keeps_index_path_exists : keeps_index os_path_exists.
Proof. done. Qed.

Lemma keeps_index_getenv key : keeps_index (os_getenv key).
Proof. done. Qed.

Lemma keeps_index_load_local embeddings :
  keeps_index (FAISS_load_local embeddings).
Proof. done. Qed.

End Frames.

Create HintDb frames.
#[export] Hint Resolve calls_only_ret calls_only_raise calls_only_lift
  calls_only_path_exists calls_only_getenv calls_only_rmtree
  calls_only_save_local calls_only_load_local calls_only_load_dotenv
  keeps_index_ret keeps_index_raise keeps_index_lift keeps_index_path_exists
  keeps_index_getenv keeps_index_load_local : frames.
#[export] Hint Extern 1 (read_only _) => exact I : frames.
#[export] Hint Extern 1 (~ is_getenv _) => (cbn; tauto) : frames.

(** One step through a computation of [M]: split a [bind] or a
    [try_except], branch on a test, or close a primitive. *)
Ltac frame_step :=
  first
    [ apply calls_only_bind; [|intros ?]
    | apply calls_only_try_except; [|intros ?]
    | apply keeps_index_bind; [|intros ?]
    | apply keeps_index_try_except; [|intros ?]
    | match goal with
      | |- context [if ?b then _ else _] => destruct b
      | |- context [match ?o with Some _ => _ | None => _ end] => destruct o
      end
    | solve [auto with frames] ].

(** Run the monadic glue of a handler, leaving the tests in place. *)
Ltac run :=
  cbv beta iota delta
    [bind try_except raise ret lift os_path_exists os_getenv FAISS_load_local
     negb];
  rewrite ?environ_log_call, ?faiss_index_log_call.

(** ** The indexer and the handlers *)

Section Handlers.
Context `{External}.

(** What [ask_question] answers when nothing is at the index path. *)
Lemma ask_question_without_index (request : QuestionRequest) (w : world) :
  question request <> [] -> faiss_index w = None ->
  serve (ask_question request) w =
    (http_error 400
       "No documents have been processed yet. Please upload files first.",
     log_call call_path_exists w).
Proof.
  intros Hq Hi. apply truthy_true in Hq.
  unfold serve, ask_question. rewrite Hq. run. rewrite Hi. exact eq_refl.
Qed.

Lemma get_vector_store_calls (P : call -> Prop) text_chunks :
  P call_path_exists -> P call_rmtree -> (forall s, P (call_save_local s)) ->
  calls_only P (get_vector_store text_chunks).
Proof.
  intros H1 H2 H3. unfold get_vector_store. repeat frame_step.
Qed.

Lemma upload_pdfs_calls (P : call -> Prop) files :
  P call_path_exists -> P call_rmtree -> (forall s, P (call_save_local s)) ->
  calls_only P (upload_pdfs files).
Proof.
  intros H1 H2 H3. unfold upload_pdfs.
  repeat first [by apply get_vector_store_calls | frame_step].
Qed.

(** When the embedding model cannot be loaded, [get_vector_store] raises
    before it touches the index. *)
Lemma get_vector_store_model_failure_keeps_index (text_chunks : list pystr)
    (w : world) (e : exn) :
  text_chunks <> [] ->
  HuggingFaceEmbeddings embedding_model_name = Raise e ->
  get_vector_store text_chunks w = (Raise e, w).
Proof.
  intros Hne Hctor. apply truthy_true in Hne.
  unfold get_vector_store, bind, lift. by rewrite Hne, Hctor.
Qed.

Lemma get_vector_store_no_chunks (w : world) :
  get_vector_store [] w =
    (Raise (ValueError (str "Text chunks are empty, cannot create vector store.")),
     w).
Proof. reflexivity. Qed.

(** [FAISS.from_texts] returns only when the embedding gave one vector
    for each text, and then pairs them in order. *)
Lemma FAISS_from_texts_Ok (texts : list pystr) (embedding : Embeddings vector)
    (s : store) :
  FAISS_from_texts texts embedding = Ok s ->
  exists vectors,
    embed_documents embedding texts = Ok vectors /\
    length vectors = length texts /\
    s = zip texts vectors.
Proof.
  unfold FAISS_from_texts.
  destruct (embed_documents embedding texts) as [vectors|e]; [|done].
  cbn [mbind result_bind].
  destruct (truthy vectors); cbn [negb]; [|done].
  case_bool_decide; [|done]. intros [= <-]. by exists vectors.
Qed.

Lemma map_fst_zip {A B : Type} (l : list A) (k : list B) :
  length k = length l -> map fst (zip l k) = l.
Proof.
  revert k. induction l as [|x l IH]; intros [|y k]; cbn; try done.
  intros [= Hlen]. by rewrite IH.
Qed.

(** The removal of lines 67 and 68 never raises and leaves nothing at
    the path. *)
Lemma remove_existing_index_run (w : world) :
  exists w_removed,
    remove_existing_index w = (Ok tt, w_removed) /\
    faiss_index w_removed = None /\
    environ w_removed = environ w /\
    journal w_removed =
      journal w ++ [call_path_exists]
        ++ match faiss_index w with Some _ => [call_rmtree] | None => [] end.
Proof.
  unfold remove_existing_index, bind, os_path_exists, shutil_rmtree, ret.
  destruct (faiss_index w) as [old|] eqn:Hold; cbn; rewrite ?Hold;
    (eexists; split; [exact eq_refl|]); cbn; rewrite ?Hold;
    by rewrite <- ?(assoc_L (++)).
Qed.

(** What [get_vector_store] does on chunks, step by step. *)
Lemma get_vector_store_run (text_chunks : list pystr) (w : world) :
  text_chunks <> [] ->
  get_vector_store text_chunks w =
    match HuggingFaceEmbeddings embedding_model_name with
    | Raise e => (Raise e, w)
    | Ok embeddings =>
        match FAISS_from_texts text_chunks embeddings with
        | Raise e => (Raise e, (remove_existing_index w).2)
        | Ok vector_store =>
            FAISS_save_local vector_store (remove_existing_index w).2
        end
    end.
Proof.
  intros Hne. apply truthy_true in Hne.
  unfold get_vector_store, remove_existing_index, bind, lift, ret,
    os_path_exists, shutil_rmtree.
  rewrite Hne. cbn [negb].
  destruct (HuggingFaceEmbeddings embedding_model_name) as [embeddings|e];
    [|done].
  cbn. destruct (faiss_index w) as [old|] eqn:Hold; cbn; rewrite ?Hold;
    by destruct (FAISS_from_texts text_chunks embeddings).
Qed.

(** What [upload_pdfs] does on a non-empty list of files. *)
Lemma upload_pdfs_run (files : list UploadFile) (w : world) :
  files <> [] ->
  upload_pdfs files w =
    match read_files files with
    | Raise e => (Raise (HTTPException 500
                    (str "An error occurred during processing: " ++ str_exn e)), w)
    | Ok pdf_docs_bytes =>
        let raw_text := read_pdfs pdf_docs_bytes [] in
        if truthy raw_text then
          match get_text_chunks raw_text with
          | Raise e => (Raise (HTTPException 500
                          (str "An error occurred during processing: " ++ str_exn e)), w)
          | Ok text_chunks =>
              match get_vector_store text_chunks w with
              | (Ok _, w') => (Ok upload_success_body, w')
              | (Raise e, w') =>
                  (Raise (HTTPException 500
                     (str "An error occurred during processing: " ++ str_exn e)), w')
              end
          end
        else
          (Raise (HTTPException 500
             (str "An error occurred during processing: "
                ++ str_exn (HTTPException 400
                     (str "Could not extract any text from the provided PDFs.")))),
           w)
    end.
Proof.
  intros Hne. apply truthy_true in Hne.
  unfold upload_pdfs, try_except, bind, lift, raise, ret, get_pdf_text.
  rewrite Hne. cbn [negb].
  destruct (read_files files) as [bs|e]; [|done].
  destruct (truthy (read_pdfs bs [])); cbn [negb]; [|done].
  destruct (get_text_chunks (read_pdfs bs [])) as [chunks|e]; [|done].
  by destruct (get_vector_store chunks w) as [[[]|e] w'].
Qed.

Lemma upload_pdfs_success_inv (files : list UploadFile) (w w' : world)
    (body : json) :
  upload_pdfs files w = (Ok body, w') ->
  exists pdf_docs_bytes raw_text text_chunks embeddings vectors,
    read_files files = Ok pdf_docs_bytes /\
    get_pdf_text pdf_docs_bytes = Ok raw_text /\
    raw_text <> [] /\
    get_text_chunks raw_text = Ok text_chunks /\
    text_chunks <> [] /\
    HuggingFaceEmbeddings embedding_model_name = Ok embeddings /\
    embed_documents embeddings text_chunks = Ok vectors /\
    length vectors = length text_chunks /\
    save_local_fault (zip text_chunks vectors) = None /\
    body = upload_success_body /\
    faiss_index w' = Some (zip text_chunks vectors) /\
    environ w' = environ w.
Proof.
  destruct files as [|file files]; [done|].
  rewrite upload_pdfs_run by done. cbv zeta.
  destruct (read_files (file :: files)) as [bs|e]; [|done].
  destruct (truthy (read_pdfs bs [])) eqn:Hraw; [|done].
  destruct (get_text_chunks (read_pdfs bs [])) as [chunks|e] eqn:Hchunks; [|done].
  destruct chunks as [|c chunks]; [by rewrite get_vector_store_no_chunks|].
  rewrite get_vector_store_run by done.
  destruct (HuggingFaceEmbeddings embedding_model_name) as [embeddings|e];
    [|done].
  destruct (FAISS_from_texts (c :: chunks) embeddings) as [s|e] eqn:Hfrom;
    [|done].
  apply FAISS_from_texts_Ok in Hfrom as (vectors & Hemb & Hlen & ->).
  destruct (remove_existing_index_run w) as (w_removed & -> & _ & Henv & _).
  unfold FAISS_save_local. cbn [snd].
  destruct (save_local_fault _) eqn:Hsave; [done|].
  intros [= <- <-].
  exists bs, (read_pdfs bs []), (c :: chunks), embeddings, vectors.
  repeat split; try done. by apply truthy_true.
Qed.

Lemma ask_question_run (request : QuestionRequest) (w : world) (db : store) :
  question request <> [] ->
  faiss_index w = Some db ->
  exists w',
    faiss_index w' = Some db /\
    serve (ask_question request) w =
      (match answer_from (environ w !! GOOGLE_API_KEY) db (question request) with
       | Ok answer => {| status_code := 200; content := [(str "answer", answer)] |}
       | Raise e => ask_failure e
       end, w').
Proof.
  intros Hq Hdb. apply truthy_true in Hq.
  unfold serve, ask_question, answer_from. rewrite Hq. run. rewrite Hdb.
  change (bool_decide (is_Some (Some db))) with true. run.
  change (str "GOOGLE_API_KEY") with GOOGLE_API_KEY.
  destruct (environ w !! GOOGLE_API_KEY) as [api_key|]; [|(eexists; split; [|exact eq_refl]; exact Hdb)].
  destruct (truthy api_key); run; [|(eexists; split; [|exact eq_refl]; exact Hdb)].
  destruct (HuggingFaceEmbeddings embedding_model_name) as [embeddings|e];
    [|(eexists; split; [|exact eq_refl]; exact Hdb)].
  run. rewrite Hdb. cbn [mbind result_bind].
  destruct (load_local_fault db); [(eexists; split; [|exact eq_refl]; exact Hdb)|]. cbn [mbind result_bind].
  change {| model := str "models/gemini-2.5-flash"; google_api_key := api_key;
            temperature := 3 # 10 |} with (gemini api_key).
  destruct (retrieval_chain_invoke _ _ _ _ _); (eexists; split; [|exact eq_refl]; exact Hdb).
Qed.

Lemma ask_question_status (request : QuestionRequest) (w : world) :
  let r := (serve (ask_question request) w).1 in
  (status_code r = 400 <-> question request = [] \/ faiss_index w = None) /\
  (status_code r = 200 \/ status_code r = 400 \/ status_code r = 500).
Proof.
  cbv zeta.
  destruct (decide (question request = [])) as [Hq|Hq].
  { unfold serve, ask_question. rewrite Hq. cbn.
    split; [split; auto|]. right. by left. }
  destruct (faiss_index w) as [db|] eqn:Hdb.
  2:{ rewrite ask_question_without_index by done. cbn.
      split; [split; auto|]. right. by left. }
  destruct (ask_question_run request w db Hq Hdb) as (w' & _ & ->).
  destruct (answer_from _ _ _); cbn;
    (split; [split; [intros Heq; discriminate Heq|intros [Heq|Heq]; done]|auto]).
Qed.

Lemma get_vector_store_ignores_state (text_chunks : list pystr) (w1 w2 : world) :
  (get_vector_store text_chunks w1).1 = (get_vector_store text_chunks w2).1 /\
  ((get_vector_store text_chunks w1).1 = Ok tt ->
   faiss_index (get_vector_store text_chunks w1).2
   = faiss_index (get_vector_store text_chunks w2).2).
Proof.
  destruct text_chunks as [|c chunks]; [done|].
  rewrite !get_vector_store_run by done.
  destruct (HuggingFaceEmbeddings embedding_model_name) as [embeddings|e];
    [|done].
  destruct (FAISS_from_texts (c :: chunks) embeddings) as [s|e]; [|done].
  unfold FAISS_save_local. by destruct (save_local_fault s).
Qed.

(** C1.  What the code does where the claim asks for status 400: when
    the files are read and no text is extracted, the [HTTPException] with
    status 400 is raised inside the [try] of the handler, caught by its
    [except Exception], and turned into status 500. *)
Theorem upload_without_text_answers_500 (files : list UploadFile)
    (pdf_docs_bytes : list bytes) (w : world) :
  files <> [] ->
  read_files files = Ok pdf_docs_bytes ->
  get_pdf_text pdf_docs_bytes = Ok [] ->
  serve (upload_pdfs files) w =
    (http_error 500
       "An error occurred during processing: 400: Could not extract any text from the provided PDFs.",
     w).
Proof.
  intros Hfiles Hread Htext. apply truthy_true in Hfiles.
  unfold serve, upload_pdfs, try_except, bind, lift, raise.
  rewrite Hfiles, Hread, Htext. reflexivity.
Qed.

(** C2.  A successful call of [get_vector_store] on a non-empty list of
    chunks is the removal of lines 67 and 68 followed by the save of the
    new index; the removal leaves nothing at the path, whatever was there
    before, so that the save writes to an empty path; afterwards the path
    holds the new chunks, all of them and in their order, each with the
    vector the embedding gave it, and nothing else.  The calls made on the
    path are the existence test, the removal when an index was there, and
    then the save. *)
Theorem get_vector_store_replaces_index (text_chunks : list pystr)
    (w w' : world) :
  text_chunks <> [] ->
  get_vector_store text_chunks w = (Ok tt, w') ->
  exists embeddings vectors w_removed,
    let vector_store := zip text_chunks vectors in
    HuggingFaceEmbeddings embedding_model_name = Ok embeddings /\
    embed_documents embeddings text_chunks = Ok vectors /\
    length vectors = length text_chunks /\
    map fst vector_store = text_chunks /\
    get_vector_store text_chunks w =
      bind remove_existing_index (fun _ => FAISS_save_local vector_store) w /\
    remove_existing_index w = (Ok tt, w_removed) /\
    faiss_index w_removed = None /\
    FAISS_save_local vector_store w_removed = (Ok tt, w') /\
    faiss_index w' = Some vector_store /\
    journal w' =
      journal w ++ [call_path_exists]
        ++ match faiss_index w with Some _ => [call_rmtree] | None => [] end
        ++ [call_save_local vector_store].
Proof.
  intros Hne Hrun. pose proof Hrun as Hrun'.
  rewrite get_vector_store_run in Hrun' by done.
  destruct (HuggingFaceEmbeddings embedding_model_name) as [embeddings|e];
    [|done].
  destruct (FAISS_from_texts text_chunks embeddings) as [s|e] eqn:Hfrom;
    [|done].
  apply FAISS_from_texts_Ok in Hfrom as (vectors & Hemb & Hlen & ->).
  destruct (remove_existing_index_run w) as (w_removed & Hrm & Hi & _ & Hj).
  rewrite Hrm in Hrun'. cbn [snd] in Hrun'.
  exists embeddings, vectors, w_removed. cbv zeta.
  split; [done|]. split; [done|]. split; [done|].
  split; [by apply map_fst_zip|].
  split; [unfold bind; by rewrite Hrm, Hrun, Hrun'|].
  split; [done|]. split; [done|]. split; [done|].
  revert Hrun'. unfold FAISS_save_local.
  destruct (save_local_fault (zip text_chunks vectors)); [done|].
  intros [= <-]. cbn. split; [done|].
  by rewrite Hj, <- !(assoc_L (++)).
Qed.

(** C5.  Chunking the empty string gives no chunk, and [get_vector_store]
    on no chunks raises its [ValueError] before doing anything else. *)
Theorem get_vector_store_rejects_no_chunks (w : world) :
  get_text_chunks (str "") = Ok [] /\
  get_vector_store [] w =
    (Raise (ValueError (str "Text chunks are empty, cannot create vector store.")),
     w).
Proof. split; reflexivity. Qed.

(** C6, as amended.  An empty question is answered with status 400 and
    the message that no question was provided, whether an index exists
    or not; a non-empty question without an index is answered with
    status 400 and the message that no documents have been processed;
    in both cases the status is 400 and never 500. *)
Theorem ask_question_validation (request : QuestionRequest) (w : world) :
  (question request = [] ->
     serve (ask_question request) w =
       (http_error 400 "No question was provided.", w)) /\
  (question request <> [] -> faiss_index w = None ->
     serve (ask_question request) w =
       (http_error 400
          "No documents have been processed yet. Please upload files first.",
        log_call call_path_exists w)) /\
  (question request = [] \/ faiss_index w = None ->
     status_code (serve (ask_question request) w).1 = 400).
Proof.
  assert (question request = [] ->
          serve (ask_question request) w =
            (http_error 400 "No question was provided.", w)) as Hempty.
  { intros Hq. unfold serve, ask_question. by rewrite Hq. }
  split; [done|]. split; [apply ask_question_without_index|].
  intros [Hq|Hi].
  - by rewrite Hempty.
  - destruct (decide (question request = [])) as [Hq|Hq].
    + by rewrite Hempty.
    + by rewrite ask_question_without_index.
Qed.

(** C7.  The key is read by [ask_question], once the question and the
    index have passed validation; when it is absent or empty the
    [ValueError] raised there comes out as status 500.  The start of the
    process never raises and does not read the key, nor does the upload
    handler. *)
Theorem api_key_read_when_asking (request : QuestionRequest) (w : world)
    (index : store) (files : list UploadFile) :
  question request <> [] ->
  faiss_index w = Some index ->
  environ w !! str "GOOGLE_API_KEY" = None \/
    environ w !! str "GOOGLE_API_KEY" = Some [] ->
  serve (ask_question request) w =
    (http_error 500
       "An internal error occurred: GOOGLE_API_KEY not found in .env file. Please check your .env file.",
     log_call (call_getenv (str "GOOGLE_API_KEY")) (log_call call_path_exists w)) /\
  (startup w).1 = Ok tt /\
  calls_only (fun c => ~ is_getenv c) startup /\
  calls_only (fun c => ~ is_getenv c) (upload_pdfs files).
Proof.
  intros Hq Hi Hkey. split; [|split; [done|split]].
  - apply truthy_true in Hq.
    unfold serve, ask_question. rewrite Hq. run. rewrite Hi.
    change (bool_decide (is_Some (Some index))) with true. run.
    destruct Hkey as [-> | ->]; exact eq_refl.
  - unfold startup. repeat frame_step.
  - apply upload_pdfs_calls; intros; cbn; tauto.
Qed.

(** C8.  Whenever [ask_question] returns an answer, the answer is what
    the model, set to temperature 0.3, gave for the prompt template
    filled with the retrieved context and the question; that prompt
    holds the refusal sentence and the instruction to answer from the
    provided context.  [get_text_chunks] splits with chunk size 10000
    and overlap 1000. *)
Theorem fixed_parameters (request : QuestionRequest) (w w' : world)
    (body : json) :
  ask_question request w = (Ok body, w') ->
  exists embeddings db api_key docs prompt answer,
    body = [(str "answer", answer)] /\
    retrieve embeddings db (question request) = Ok docs /\
    prompt =
      prompt_before_context ++ join (str (nl ++ nl)) docs
        ++ prompt_before_input ++ question request ++ prompt_after_input /\
    llm_invoke {| model := str "models/gemini-2.5-flash";
                  google_api_key := api_key;
                  temperature := 3 # 10 |} prompt = Ok answer /\
    contains refusal_sentence prompt = true /\
    contains instruction_sentence prompt = true /\
    forall text,
      get_text_chunks text =
        split_text {| chunk_size := 10000; chunk_overlap := 1000;
                      separators := default_separators |} text.
Proof.
  unfold ask_question.
  destruct (truthy (question request)); [|done]. run.
  destruct (bool_decide (is_Some (faiss_index w))); [|done]. run.
  destruct (environ w !! str "GOOGLE_API_KEY") as [api_key|]; [|done]. run.
  destruct (truthy api_key); [|done]. run.
  destruct (HuggingFaceEmbeddings embedding_model_name) as [embeddings|];
    [|done].
  run. destruct (faiss_index w) as [db|]; [|done].
  destruct (load_local_fault db); [done|]. run.
  unfold retrieval_chain_invoke.
  destruct (retrieve embeddings db (question request)) as [docs|] eqn:Hdocs;
    [|done].
  cbn [mbind result_bind]. rewrite format_prompt_template.
  cbn [mbind result_bind].
  destruct (llm_invoke _ _) as [answer|] eqn:Hllm; [|done].
  intros [= <- <-].
  exists embeddings, db, api_key, docs. eexists. exists answer.
  split; [done|]. split; [done|]. split; [done|]. split; [exact Hllm|].
  split; [apply contains_app_l, prompt_has_refusal_sentence|].
  split; [apply contains_app_l, prompt_has_instruction|]. done.
Qed.

(** C9, as amended.  When an index exists and the embedding model loads,
    the old index is removed before the new one is made, and it is not
    put back.  If making the new index raises, [get_vector_store] raises
    that exception and leaves nothing at the path, so that a later
    question is answered with status 400 and the message that no
    documents have been processed.  If the save raises,
    [get_vector_store] raises that exception and the path holds what the
    failed save left there: when it left nothing, a later question is
    answered with that same status 400; when it left a directory, a later
    question passes the existence test and is answered with status 200 or
    500. *)
Theorem get_vector_store_failure_loses_index (text_chunks : list pystr)
    (w : world) (old : store) (embeddings : Embeddings vector) (e : exn) :
  text_chunks <> [] ->
  faiss_index w = Some old ->
  HuggingFaceEmbeddings embedding_model_name = Ok embeddings ->
  (FAISS_from_texts text_chunks embeddings = Raise e ->
   exists w',
     get_vector_store text_chunks w = (Raise e, w') /\
     faiss_index w' = None /\
     forall request, question request <> [] ->
       (serve (ask_question request) w').1 =
         http_error 400
           "No documents have been processed yet. Please upload files first.") /\
  (forall vector_store,
     FAISS_from_texts text_chunks embeddings = Ok vector_store ->
     save_local_fault vector_store = Some e ->
     exists w',
       get_vector_store text_chunks w = (Raise e, w') /\
       faiss_index w' = save_local_residue vector_store /\
       forall request, question request <> [] ->
         let r := (serve (ask_question request) w').1 in
         match save_local_residue vector_store with
         | None =>
             r = http_error 400
                   "No documents have been processed yet. Please upload files first."
         | Some _ => status_code r = 200 \/ status_code r = 500
         end).
Proof.
  intros Hne Hold Hctor.
  destruct (remove_existing_index_run w) as (w_removed & Hrm & Hi & _ & _).
  split.
  - intros Hfrom. exists w_removed.
    rewrite get_vector_store_run by done. rewrite Hctor, Hfrom, Hrm.
    split; [done|]. split; [done|].
    intros request Hq. by rewrite ask_question_without_index.
  - intros vector_store Hfrom Hsave.
    rewrite get_vector_store_run by done. rewrite Hctor, Hfrom, Hrm.
    unfold FAISS_save_local. cbn [snd]. rewrite Hsave.
    eexists. split; [exact eq_refl|].
    destruct (save_local_residue vector_store) as [residue|].
    + split; [done|]. intros request Hq. cbv zeta.
      destruct (ask_question_status request
                  (set_index (Some residue)
                     (log_call (call_save_local vector_store) w_removed)))
        as [H400 Hcodes].
      destruct Hcodes as [Hs|[Hs|Hs]]; [by left| |by right].
      apply H400 in Hs as [Hs|Hs]; done.
    + split; [done|]. intros request Hq. cbv zeta.
      by rewrite ask_question_without_index.
Qed.

(** C10.  Whatever the outcome of [ask_question], the persisted index is
    afterwards what it was before, and the only calls the handler makes
    are reads: the existence test, the reading of the environment and the
    loading of the index. *)
Theorem ask_question_leaves_index (request : QuestionRequest) :
  keeps_index (ask_question request) /\
  calls_only read_only (ask_question request).
Proof.
  split; unfold ask_question; repeat frame_step.
Qed.

End Handlers.

(** ** Examples *)

(** An instance of C1: one uploaded file that opens on a single page
    without text. *)
Lemma upload_without_text_answers_500_witness :
  let E := example_services None in
  let files := [{| read := Ok [Byte.x00] |}] in
  let w := example_world E None ∅ in
  @serve E (upload_pdfs files) w =
    (http_error 500
       "An error occurred during processing: 400: Could not extract any text from the provided PDFs.",
     w).
Proof.
  cbv zeta.
  apply (@upload_without_text_answers_500 (example_services None) _ [[Byte.x00]]);
    [discriminate | reflexivity | reflexivity].
Defined.

(** An instance of C2: one new chunk over an index holding an old one. *)
Lemma get_vector_store_replaces_index_witness :
  let E := example_services None in
  let w := example_world E (Some [(str "old", tt)]) ∅ in
  let w' := (@get_vector_store E [str "new"] w).2 in
  exists embeddings vectors w_removed,
    let vector_store := zip [str "new"] vectors in
    @HuggingFaceEmbeddings E embedding_model_name = Ok embeddings /\
    embed_documents embeddings [str "new"] = Ok vectors /\
    length vectors = length [str "new"] /\
    map fst vector_store = [str "new"] /\
    @get_vector_store E [str "new"] w =
      bind remove_existing_index (fun _ => FAISS_save_local vector_store) w /\
    remove_existing_index w = (Ok tt, w_removed) /\
    faiss_index w_removed = None /\
    FAISS_save_local vector_store w_removed = (Ok tt, w') /\
    faiss_index w' = Some vector_store /\
    journal w' =
      journal w ++ [call_path_exists]
        ++ match faiss_index w with Some _ => [call_rmtree] | None => [] end
        ++ [call_save_local vector_store].
Proof.
  cbv zeta.
  apply (@get_vector_store_replaces_index (example_services None));
    [discriminate | reflexivity].
Defined.

(** An instance of C9, as amended, on a full disk: the embedding of one
    chunk runs out of memory, and the save of another raises after it
    has created the directory. *)
Lemma get_vector_store_failure_loses_index_witness :
  let E := full_disk_services in
  let w := example_world E (Some [(str "old", tt)]) ∅ in
  (exists w',
     @get_vector_store E [str "huge"] w
       = (Raise (LibraryError (str "out of memory")), w') /\
     faiss_index w' = None /\
     forall request, question request <> [] ->
       (@serve E (ask_question request) w').1 =
         http_error 400
           "No documents have been processed yet. Please upload files first.") /\
  (exists w',
     @get_vector_store E [str "new"] w
       = (Raise (LibraryError (str "No space left on device")), w') /\
     faiss_index w' = Some [] /\
     forall request, question request <> [] ->
       status_code (@serve E (ask_question request) w').1 = 200 \/
       status_code (@serve E (ask_question request) w').1 = 500).
Proof.
  cbv zeta. split.
  - apply (@get_vector_store_failure_loses_index full_disk_services
             [str "huge"] _ [(str "old", tt)] picky_embeddings);
      [discriminate | reflexivity | reflexivity | reflexivity].
  - destruct (@get_vector_store_failure_loses_index full_disk_services
                [str "new"]
                (example_world full_disk_services (Some [(str "old", tt)]) ∅)
                [(str "old", tt)] picky_embeddings
                (LibraryError (str "No space left on device")))
      as [_ Hsave]; [discriminate | reflexivity | reflexivity |].
    apply (Hsave [(str "new", tt)]); reflexivity.
Defined.

(** C9, as stated, fails when the save raises after it has created the
    directory: the old index is gone, but the path exists, so that a
    later question passes the existence test, fails to load the index
    and is answered with status 500, not with the status 400 of the
    missing documents. *)
Lemma failed_save_leaves_directory :
  let E := full_disk_services in
  let e := LibraryError (str "No space left on device") in
  let w := example_world E (Some [(str "old", tt)])
             {[ GOOGLE_API_KEY := str "secret" ]} in
  let w' := (@get_vector_store E [str "new"] w).2 in
  let request := {| question := str "Why?" |} in
  faiss_index w = Some [(str "old", tt)] /\
  @HuggingFaceEmbeddings E embedding_model_name = Ok picky_embeddings /\
  @FAISS_from_texts E [str "new"] picky_embeddings = Ok [(str "new", tt)] /\
  @save_local_fault E [(str "new", tt)] = Some e /\
  (@get_vector_store E [str "new"] w).1 = Raise e /\
  faiss_index w' = Some [] /\
  (@serve E (ask_question request) w').1 =
    ask_failure (LibraryError (str "could not open faiss_index/index.faiss")) /\
  (@serve E (ask_question request) w').1 <>
    http_error 400
      "No documents have been processed yet. Please upload files first.".
Proof.
  cbv zeta. repeat split; try (vm_compute; reflexivity).
  vm_compute. intros Heq. discriminate Heq.
Qed.

(** Two instances of C6, in a world without index. *)
Lemma ask_question_validation_witness :
  let E := example_services None in
  let w := example_world E None ∅ in
  @serve E (ask_question {| question := str "What is it about?" |}) w =
    (http_error 400
       "No documents have been processed yet. Please upload files first.",
     log_call call_path_exists w) /\
  @serve E (ask_question {| question := [] |}) w =
    (http_error 400 "No question was provided.", w).
Proof.
  cbv zeta. split.
  - apply (@ask_question_validation (example_services None));
      [discriminate | reflexivity].
  - apply (@ask_question_validation (example_services None)). reflexivity.
Defined.

(** C6, as stated, fails for an empty question when no index exists:
    the answer has status 400, but its message is the one of the missing
    question, not the one of the missing documents. *)
Lemma ask_empty_question_without_index :
  let E := example_services None in
  let w := example_world E None ∅ in
  faiss_index w = None /\
  (@serve E (ask_question {| question := [] |}) w).1 =
    http_error 400 "No question was provided." /\
  (@serve E (ask_question {| question := [] |}) w).1 <>
    http_error 400
      "No documents have been processed yet. Please upload files first.".
Proof. cbv zeta. split; [reflexivity|]. split; [reflexivity|]. discriminate. Qed.

(** An instance of C7: an index exists and the environment is empty. *)
Lemma api_key_read_when_asking_witness :
  let E := example_services None in
  let w := example_world E (Some [(str "chunk", tt)]) ∅ in
  let request := {| question := str "What is it about?" |} in
  @serve E (ask_question request) w =
    (http_error 500
       "An internal error occurred: GOOGLE_API_KEY not found in .env file. Please check your .env file.",
     log_call (call_getenv (str "GOOGLE_API_KEY")) (log_call call_path_exists w)) /\
  (@startup E w).1 = Ok tt /\
  calls_only (fun c => ~ is_getenv c) (@startup E) /\
  calls_only (fun c => ~ is_getenv c) (@upload_pdfs E []).
Proof.
  cbv zeta.
  apply (@api_key_read_when_asking (example_services None) _ _ [(str "chunk", tt)]);
    [discriminate | reflexivity | left; reflexivity].
Defined.

(** An instance of C8: a request that is answered. *)
Lemma fixed_parameters_witness :
  let E := example_services None in
  let w := example_world E (Some [(str "chunk", tt)])
             {[ str "GOOGLE_API_KEY" := str "secret" ]} in
  let request := {| question := str "Why?" |} in
  exists embeddings db api_key docs prompt answer,
    (@ask_question E request w).1 = Ok [(str "answer", answer)] /\
    @retrieve E embeddings db (question request) = Ok docs /\
    prompt =
      prompt_before_context ++ join (str (nl ++ nl)) docs
        ++ prompt_before_input ++ question request ++ prompt_after_input /\
    @llm_invoke E {| model := str "models/gemini-2.5-flash";
                     google_api_key := api_key;
                     temperature := 3 # 10 |} prompt = Ok answer /\
    contains refusal_sentence prompt = true /\
    contains instruction_sentence prompt = true.
Proof.
  cbv zeta.
  destruct (@ask_question (example_services None) {| question := str "Why?" |}
              (example_world (example_services None) (Some [(str "chunk", tt)])
                 {[ str "GOOGLE_API_KEY" := str "secret" ]}))
    as [[body|e] w'] eqn:Hrun.
  - destruct (@fixed_parameters (example_services None) _ _ _ _ Hrun)
      as (embeddings & db & api_key & docs & prompt & answer
          & Hbody & Hr & Hp & Hl & Hc1 & Hc2 & _).
    exists embeddings, db, api_key, docs, prompt, answer.
    repeat split; try assumption. cbn. by f_equal.
  - exfalso. vm_compute in Hrun. discriminate.
Defined.

(** * Further properties *)

(** ** Uploads and questions *)

Section Runs.
Context `{External}.

(** X3.  The response of [upload_pdfs] does not depend on the index, the
    environment or the journal it starts from, and after a success
    neither does the index: nothing of an earlier upload is merged. *)
Theorem upload_pdfs_ignores_previous_state (files : list UploadFile)
    (w1 w2 : world) :
  (serve (upload_pdfs files) w1).1 = (serve (upload_pdfs files) w2).1 /\
  (status_code (serve (upload_pdfs files) w1).1 = 200 ->
   faiss_index (serve (upload_pdfs files) w1).2
   = faiss_index (serve (upload_pdfs files) w2).2).
Proof.
  destruct files as [|file files]; [done|].
  unfold serve. rewrite !upload_pdfs_run by done. cbv zeta.
  destruct (read_files (file :: files)) as [bs|e]; [|done].
  destruct (truthy (read_pdfs bs [])); [|done].
  destruct (get_text_chunks (read_pdfs bs [])) as [chunks|e]; [|done].
  destruct (get_vector_store_ignores_state chunks w1 w2) as [Hr Hi].
  destruct (get_vector_store chunks w1) as [[[]|e1] w1'],
           (get_vector_store chunks w2) as [[[]|e2] w2'];
    cbn in *; try done.
  - split; [done|]. intros _. by apply Hi.
  - by simplify_eq.
Qed.

(** X2.  When [upload_pdfs] succeeds, every file was read, the text
    extracted from them gave at least one chunk, the embedding gave one
    vector for each chunk, and the index at the path holds these chunks,
    all of them and in their order, each with its vector. *)
Theorem upload_pdfs_success_index (files : list UploadFile) (w w' : world)
    (body : json) :
  upload_pdfs files w = (Ok body, w') ->
  exists pdf_docs_bytes raw_text text_chunks embeddings vectors,
    read_files files = Ok pdf_docs_bytes /\
    get_pdf_text pdf_docs_bytes = Ok raw_text /\
    get_text_chunks raw_text = Ok text_chunks /\
    text_chunks <> [] /\
    HuggingFaceEmbeddings embedding_model_name = Ok embeddings /\
    embed_documents embeddings text_chunks = Ok vectors /\
    length vectors = length text_chunks /\
    body = upload_success_body /\
    faiss_index w' = Some (zip text_chunks vectors) /\
    map fst (zip text_chunks vectors) = text_chunks.
Proof.
  intros Hrun.
  destruct (upload_pdfs_success_inv _ _ _ _ Hrun)
    as (bs & raw & chunks & embeddings & vectors & ? & ? & ? & ? & ? & ? & ?
        & Hlen & ? & ? & ? & ?).
  exists bs, raw, chunks, embeddings, vectors.
  repeat split; try done. by apply map_fst_zip.
Qed.

(** X4.  After a successful upload a non-empty question passes the
    validation: it is answered with status 200 or 500, never 400, and
    the index of the upload is still there afterwards. *)
Theorem upload_then_ask (files : list UploadFile) (w w' : world) (body : json)
    (request : QuestionRequest) :
  upload_pdfs files w = (Ok body, w') ->
  question request <> [] ->
  let r := serve (ask_question request) w' in
  (status_code r.1 = 200 \/ status_code r.1 = 500) /\
  faiss_index r.2 = faiss_index w' /\
  is_Some (faiss_index w').
Proof.
  intros Hrun Hq. cbv zeta.
  destruct (upload_pdfs_success_inv _ _ _ _ Hrun)
    as (bs & raw & chunks & embeddings & vectors & _ & _ & _ & _ & _ & _ & _
        & _ & _ & _ & Hi & _).
  destruct (ask_question_run request w' _ Hq Hi) as (w'' & Hi' & ->).
  cbn [fst snd]. rewrite Hi, Hi'. split; [|done].
  destruct (answer_from _ _ _); cbn; auto.
Qed.

(** X5.  Files whose text is not empty but made of whitespace only pass
    the test on the extracted text and give no chunk; the [ValueError] of
    [get_vector_store] is answered with status 500, and the world, the old
    index included, is left as it was.  That such a text gives no chunk
    rests on the model of the splitter. *)
Theorem upload_blank_text (files : list UploadFile)
    (pdf_docs_bytes : list bytes) (raw_text : pystr) (w : world) :
  read_files files = Ok pdf_docs_bytes ->
  get_pdf_text pdf_docs_bytes = Ok raw_text ->
  raw_text <> [] ->
  blank raw_text ->
  serve (upload_pdfs files) w =
    (upload_failure
       (ValueError (str "Text chunks are empty, cannot create vector store.")),
     w).
Proof.
  intros Hread [= <-] Hne Hblank.
  assert (files <> []) as Hfiles.
  { intros ->. cbn in Hread. by simplify_eq. }
  apply truthy_true in Hne.
  unfold serve. rewrite upload_pdfs_run by done. cbv zeta.
  rewrite Hread, Hne, get_text_chunks_blank by done.
  by rewrite get_vector_store_no_chunks.
Qed.

(** X6.  When reading one of the files raises, [upload_pdfs] answers
    with status 500, echoes the exception, and leaves the world as it
    was. *)
Theorem upload_read_failure (files : list UploadFile) (e : exn) (w : world) :
  read_files files = Raise e ->
  serve (upload_pdfs files) w = (upload_failure e, w).
Proof.
  intros Hread.
  assert (files <> []) as Hfiles by (by intros ->).
  unfold serve. rewrite upload_pdfs_run by done. by rewrite Hread.
Qed.

(** X7.  When the embedding model cannot be loaded, no upload succeeds
    and every upload leaves the world, the old index included, as it
    was: the model is loaded before the index is removed. *)
Theorem upload_without_model_keeps_world (files : list UploadFile) (e : exn)
    (w : world) :
  HuggingFaceEmbeddings embedding_model_name = Raise e ->
  (serve (upload_pdfs files) w).2 = w /\
  status_code (serve (upload_pdfs files) w).1 <> 200.
Proof.
  intros Hctor. destruct files as [|file files]; [done|].
  unfold serve. rewrite upload_pdfs_run by done. cbv zeta.
  destruct (read_files (file :: files)) as [bs|e']; [|done].
  destruct (truthy (read_pdfs bs [])); [|done].
  destruct (get_text_chunks (read_pdfs bs [])) as [[|c chunks]|e']; [done| |done].
  rewrite get_vector_store_run by done. by rewrite Hctor.
Qed.

(** X9.  [ask_question] answers with status 200, 400 or 500, and with 400
    exactly when the question is empty or no index exists. *)
Theorem ask_question_status_codes (request : QuestionRequest) (w : world) :
  let r := (serve (ask_question request) w).1 in
  (status_code r = 400 <-> question request = [] \/ faiss_index w = None) /\
  (status_code r = 200 \/ status_code r = 400 \/ status_code r = 500).
Proof. apply ask_question_status. Qed.

(** X10.  For a validated question with a key, whatever raises inside
    the [try] (loading the embedding model, loading the index, retrieval
    or the model) is answered with status 500 and the text of the
    exception; the index is still there afterwards. *)
Theorem ask_question_failure_echoed (request : QuestionRequest) (w : world)
    (db : store) (api_key : pystr) (e : exn) :
  question request <> [] ->
  faiss_index w = Some db ->
  environ w !! GOOGLE_API_KEY = Some api_key ->
  api_key <> [] ->
  (HuggingFaceEmbeddings embedding_model_name = Raise e \/
   exists embeddings,
     HuggingFaceEmbeddings embedding_model_name = Ok embeddings /\
     (load_local_fault db = Some e \/
      load_local_fault db = None /\
      retrieval_chain_invoke embeddings db (gemini api_key) prompt_template
        (question request) = Raise e)) ->
  (serve (ask_question request) w).1 = ask_failure e /\
  faiss_index (serve (ask_question request) w).2 = Some db.
Proof.
  intros Hq Hdb Hkey Hk Hfail. apply truthy_true in Hk.
  destruct (ask_question_run request w db Hq Hdb) as (w' & Hi & ->).
  split; [|done]. cbn [fst]. unfold answer_from. rewrite Hkey, Hk.
  destruct Hfail as [->|(embeddings & -> & [->| [-> Hchain]])];
    cbn [mbind result_bind]; [done|done|].
  by rewrite Hchain.
Qed.

(** X11.  For a validated question with a key, when the model, the
    index and the retrieval work and the hosted model answers the filled
    template, [ask_question] answers with status 200 and that answer, and
    the index and the environment are afterwards what they were. *)
Theorem ask_question_success (request : QuestionRequest) (w : world)
    (db : store) (api_key : pystr) (embeddings : Embeddings vector)
    (docs : list pystr) (answer : pystr) :
  question request <> [] ->
  faiss_index w = Some db ->
  environ w !! GOOGLE_API_KEY = Some api_key ->
  api_key <> [] ->
  HuggingFaceEmbeddings embedding_model_name = Ok embeddings ->
  load_local_fault db = None ->
  retrieve embeddings db (question request) = Ok docs ->
  llm_invoke (gemini api_key)
    (prompt_before_context ++ join (str (nl ++ nl)) docs
       ++ prompt_before_input ++ question request ++ prompt_after_input)
    = Ok answer ->
  (serve (ask_question request) w).1 =
    {| status_code := 200; content := [(str "answer", answer)] |} /\
  faiss_index (serve (ask_question request) w).2 = Some db /\
  environ (serve (ask_question request) w).2 = environ w.
Proof.
  intros Hq Hdb Hkey Hk Hctor Hload Hdocs Hllm.
  apply truthy_true in Hq. apply truthy_true in Hk.
  unfold serve, ask_question. rewrite Hq. run. rewrite Hdb.
  change (bool_decide (is_Some (Some db))) with true. run.
  change (str "GOOGLE_API_KEY") with GOOGLE_API_KEY.
  rewrite Hkey, Hk. run. rewrite Hctor. run. rewrite Hdb, Hload.
  unfold retrieval_chain_invoke. rewrite Hdocs. cbn [mbind result_bind].
  rewrite format_prompt_template. cbn [mbind result_bind].
  change {| model := str "models/gemini-2.5-flash"; google_api_key := api_key;
            temperature := 3 # 10 |} with (gemini api_key).
  by rewrite Hllm.
Qed.

(** X12.  Extraction goes buffer by buffer: the text of two lists of
    buffers put end to end is the text of the first followed by the text
    of the second. *)
Theorem get_pdf_text_app (xs ys : list bytes) :
  exists tx ty,
    get_pdf_text xs = Ok tx /\ get_pdf_text ys = Ok ty /\
    get_pdf_text (xs ++ ys) = Ok (tx ++ ty).
Proof.
  exists (read_pdfs xs []), (read_pdfs ys []). unfold get_pdf_text.
  split; [done|]. split; [done|].
  by rewrite !read_pdfs_text, map_app, concat_app.
Qed.

(** X13.  A buffer that does not open adds nothing: the text is the one
    of the other buffers, in their order. *)
Theorem get_pdf_text_skips_unreadable (xs ys : list bytes) (b : bytes) (e : exn) :
  PdfReader b = Raise e ->
  get_pdf_text (xs ++ b :: ys) = get_pdf_text (xs ++ ys).
Proof.
  intros Hb. unfold get_pdf_text.
  rewrite !read_pdfs_text, !map_app, !concat_app. cbn.
  unfold buffer_text at 2. by rewrite Hb.
Qed.

(** X1.  [upload_pdfs] answers with status 200, 400 or 500, and with 400
    exactly when no file was sent: every failure after that, the lack of
    text included, comes out as 500. *)
Theorem upload_pdfs_status (files : list UploadFile) (w : world) :
  let r := (serve (upload_pdfs files) w).1 in
  (status_code r = 400 <-> files = []) /\
  (status_code r = 200 \/ status_code r = 400 \/ status_code r = 500).
Proof.
  cbv zeta. destruct files as [|file files].
  - split; [done|]. right. by left.
  - unfold serve. rewrite upload_pdfs_run by done. cbv zeta.
    destruct (read_files (file :: files)) as [bs|e];
      [destruct (truthy (read_pdfs bs []));
         [destruct (get_text_chunks (read_pdfs bs [])) as [chunks|e];
            [destruct (get_vector_store chunks w) as [[u|e] w']|]|]|];
      cbn; (split; [split; intros Heq; discriminate Heq|auto]).
Qed.

(** X8.  [upload_pdfs] never loads the index that is at the path, and
    reads neither the environment nor the [.env] file. *)
Theorem upload_pdfs_never_loads_index (files : list UploadFile) :
  calls_only
    (fun c => c <> call_load_local /\ ~ is_getenv c /\ c <> call_load_dotenv)
    (upload_pdfs files).
Proof. apply upload_pdfs_calls; intros; cbn; by intuition. Qed.

(** X14.  A page whose text is [None] or empty adds nothing and does
    not stop the reading of the pages after it. *)
Theorem extract_pages_ignores_textless
    (before after : list (result (option pystr))) (page : result (option pystr))
    (text : pystr) :
  page = Ok None \/ page = Ok (Some []) ->
  extract_pages (before ++ page :: after) text
  = extract_pages (before ++ after) text.
Proof.
  intros Hpage. revert text.
  induction before as [|[t|e] before IH]; intros text; cbn.
  - by destruct Hpage as [-> | ->].
  - apply IH.
  - done.
Qed.

End Runs.

(** ** The shape of the chunks *)

Lemma rstrip_idemp s : rstrip (rstrip s) = rstrip s.
Proof.
  induction s as [|c s IH]; [done|]. cbn.
  destruct (rstrip s) as [|r rs] eqn:Hr.
  - destruct (isspace c) eqn:Hc; [done|]. cbn. by rewrite Hc.
  - change (rstrip (c :: r :: rs)) with
      (match rstrip (r :: rs) with
       | [] => if isspace c then [] else [c]
       | x => c :: x
       end).
    by rewrite IH.
Qed.

Lemma lstrip_head s :
  lstrip s = [] \/ exists c t, lstrip s = c :: t /\ isspace c = false.
Proof.
  induction s as [|c s IH]; [by left|]. cbn.
  destruct (isspace c) eqn:Hc; [done|]. right. by exists c, s.
Qed.

Lemma lstrip_rstrip_lstrip s : lstrip (rstrip (lstrip s)) = rstrip (lstrip s).
Proof.
  destruct (lstrip_head s) as [->|(c & t & -> & Hc)]; [done|].
  cbn [rstrip]. destruct (rstrip t) as [|r rs].
  - rewrite Hc. cbn. by rewrite Hc.
  - cbn. by rewrite Hc.
Qed.

Lemma strip_idemp s : strip (strip s) = strip s.
Proof.
  unfold strip. by rewrite lstrip_rstrip_lstrip, rstrip_idemp.
Qed.

Lemma lstrip_suffix s : exists before, s = before ++ lstrip s.
Proof.
  induction s as [|c s [before IH]]; [by exists []|]. cbn.
  destruct (isspace c); [|by exists []].
  exists (c :: before). cbn. by rewrite <- IH.
Qed.

Lemma rstrip_prefix s : exists after, s = rstrip s ++ after.
Proof.
  induction s as [|c s [after IH]]; [by exists []|]. cbn.
  destruct (rstrip s) as [|r rs] eqn:Hr.
  - destruct (isspace c).
    + exists (c :: after). cbn. by rewrite IH at 1.
    + exists after. cbn. by rewrite IH at 1.
  - exists after. cbn. by rewrite IH at 1.
Qed.

Lemma strip_substring s : substring (strip s) s.
Proof.
  unfold substring, strip. destruct (lstrip_suffix s) as [before Hb].
  destruct (rstrip_prefix (lstrip s)) as [after Ha].
  exists before, after. by rewrite <- Ha.
Qed.

Lemma substring_trans a b c : substring a b -> substring b c -> substring a c.
Proof.
  intros (p & q & ->) (p' & q' & ->). exists (p' ++ p), (q ++ q').
  by rewrite <- !(assoc_L (++)).
Qed.

Lemma sliding_windows_substring ov (ws : list pystr) (t : pystr) :
  sliding_windows ov ws t -> Forall (fun w => substring w t) ws.
Proof.
  induction 1 as [|pre o rest ws _ _ IH]; constructor.
  - exists [], rest. cbn. by rewrite <- (assoc_L (++)).
  - eapply Forall_impl; [exact IH|]. intros w (p & q & Hw).
    exists (pre ++ p), q. by rewrite Hw, <- !(assoc_L (++)).
Qed.

(** X15.  [get_text_chunks] never raises, and each of its chunks is not
    empty, has no whitespace at either end, and occurs in the text as a
    run of consecutive characters.  This rests on the model of the
    splitter. *)
Theorem get_text_chunks_shape (text : pystr) :
  exists chunks,
    get_text_chunks text = Ok chunks /\
    Forall (fun c => c <> [] /\ strip c = c /\ substring c text) chunks.
Proof.
  destruct (get_text_chunks_windows text) as (ws & Hg & Hs & _).
  exists (omap stripped ws). split; [done|].
  apply Forall_forall. intros c (w & Hw & Hc)%list_elem_of_omap.
  unfold stripped in Hc. destruct (truthy (strip w)) eqn:Hne; [|done].
  injection Hc as <-. apply truthy_true in Hne.
  split; [done|]. split; [apply strip_idemp|].
  apply (substring_trans _ w); [apply strip_substring|].
  apply sliding_windows_substring in Hs.
  by apply (proj1 (Forall_forall _ _) Hs).
Qed.

(** ** Examples of the further properties *)

(** An instance of X1. *)
Lemma upload_pdfs_status_witness :
  let E := example_services None in
  let w := example_world E None ∅ in
  status_code (@serve E (upload_pdfs []) w).1 = 400 /\
  status_code (@serve E (upload_pdfs [text_file]) w).1 <> 400.
Proof.
  cbv zeta. split.
  - apply (@upload_pdfs_status (example_services None) []). reflexivity.
  - intros Hs.
    apply (@upload_pdfs_status (example_services None) [text_file]) in Hs.
    discriminate Hs.
Defined.

(** An instance of X3. *)
Lemma upload_pdfs_ignores_previous_state_witness :
  let E := example_services None in
  let w1 := example_world E None ∅ in
  let w2 := example_world E (Some [(str "old", tt)]) ∅ in
  faiss_index (@serve E (upload_pdfs [text_file]) w1).2
  = faiss_index (@serve E (upload_pdfs [text_file]) w2).2.
Proof.
  cbv zeta.
  apply (@upload_pdfs_ignores_previous_state (example_services None)).
  vm_compute. reflexivity.
Defined.

(** An instance of X2. *)
Lemma upload_pdfs_success_index_witness :
  let E := example_services None in
  let w := example_world E (Some [(str "old", tt)]) ∅ in
  exists text_chunks vectors,
    text_chunks <> [] /\
    length vectors = length text_chunks /\
    faiss_index (@upload_pdfs E [text_file] w).2
      = Some (zip text_chunks vectors) /\
    map fst (zip text_chunks vectors) = text_chunks.
Proof.
  cbv zeta.
  destruct (@upload_pdfs (example_services None) [text_file]
              (example_world (example_services None)
                 (Some [(str "old", tt)]) ∅))
    as [[body|e] w'] eqn:Hrun.
  - destruct (@upload_pdfs_success_index (example_services None) _ _ _ _ Hrun)
      as (bs & raw & chunks & embeddings & vectors & _ & _ & _ & Hne & _ & _
          & Hlen & _ & Hi & Hfst).
    by exists chunks, vectors.
  - exfalso. vm_compute in Hrun. discriminate.
Defined.

(** An instance of X4. *)
Lemma upload_then_ask_witness :
  let E := example_services None in
  let w := example_world E None ∅ in
  let w' := (@upload_pdfs E [text_file] w).2 in
  let r := @serve E (ask_question {| question := str "Why?" |}) w' in
  (status_code r.1 = 200 \/ status_code r.1 = 500) /\
  faiss_index r.2 = faiss_index w' /\
  is_Some (faiss_index w').
Proof.
  cbv zeta.
  destruct (@upload_pdfs (example_services None) [text_file]
              (example_world (example_services None) None ∅))
    as [[body|e] w'] eqn:Hrun.
  - apply (@upload_then_ask (example_services None) _ _ _ _ _ Hrun).
    discriminate.
  - exfalso. vm_compute in Hrun. discriminate.
Defined.

(** An instance of X5. *)
Lemma upload_blank_text_witness :
  let E := services_of blank_page_reader (Ok unit_embeddings) None (Ok [])
             (fun prompt => Ok prompt) in
  let w := example_world E (Some [(str "old", tt)]) ∅ in
  @serve E (upload_pdfs [text_file]) w =
    (upload_failure
       (ValueError (str "Text chunks are empty, cannot create vector store.")),
     w).
Proof.
  cbv zeta.
  apply (@upload_blank_text
           (services_of blank_page_reader (Ok unit_embeddings) None (Ok [])
              (fun prompt => Ok prompt))
           _ [[Byte.x02]] (str "  "));
    [reflexivity | reflexivity | discriminate | repeat constructor].
Defined.

(** An instance of X6. *)
Lemma upload_read_failure_witness :
  let E := example_services None in
  let w := example_world E (Some [(str "old", tt)]) ∅ in
  let e := LibraryError (str "connection reset") in
  @serve E (upload_pdfs [text_file; {| read := Raise e |}]) w
    = (upload_failure e, w).
Proof.
  cbv zeta.
  apply (@upload_read_failure (example_services None)). reflexivity.
Defined.

(** An instance of X7. *)
Lemma upload_without_model_keeps_world_witness :
  let e := LibraryError (str "model not found") in
  let E := services_of example_reader (Raise e) None (Ok [])
             (fun prompt => Ok prompt) in
  let w := example_world E (Some [(str "old", tt)]) ∅ in
  (@serve E (upload_pdfs [text_file]) w).2 = w /\
  status_code (@serve E (upload_pdfs [text_file]) w).1 <> 200.
Proof.
  cbv zeta.
  apply (@upload_without_model_keeps_world
           (services_of example_reader
              (Raise (LibraryError (str "model not found"))) None (Ok [])
              (fun prompt => Ok prompt))
           _ (LibraryError (str "model not found"))).
  reflexivity.
Defined.

(** An instance of X9. *)
Lemma ask_question_status_codes_witness :
  let E := example_services None in
  let w := example_world E (Some [(str "chunk", tt)]) ∅ in
  status_code (@serve E (ask_question {| question := str "Why?" |}) w).1 <> 400.
Proof.
  cbv zeta. intros Hs.
  apply (@ask_question_status_codes (example_services None)) in Hs.
  destruct Hs as [Hs|Hs]; discriminate Hs.
Defined.

(** An instance of X10. *)
Lemma ask_question_failure_echoed_witness :
  let e := LibraryError (str "quota exceeded") in
  let E := services_of example_reader (Ok unit_embeddings) None
             (Ok [str "chunk"]) (fun _ => Raise e) in
  let w := example_world E (Some [(str "chunk", tt)])
             {[ GOOGLE_API_KEY := str "secret" ]} in
  let request := {| question := str "Why?" |} in
  (@serve E (ask_question request) w).1 = ask_failure e /\
  faiss_index (@serve E (ask_question request) w).2 = Some [(str "chunk", tt)].
Proof.
  cbv zeta.
  apply (@ask_question_failure_echoed
           (services_of example_reader (Ok unit_embeddings) None
              (Ok [str "chunk"])
              (fun _ => Raise (LibraryError (str "quota exceeded"))))
           _ _ _ (str "secret"));
    [discriminate | reflexivity | vm_compute; reflexivity | discriminate |].
  right. exists unit_embeddings. split; [reflexivity|].
  right. split; [reflexivity|]. vm_compute. reflexivity.
Defined.

(** An instance of X11. *)
Lemma ask_question_success_witness :
  let E := example_services None in
  let w := example_world E (Some [(str "chunk", tt)])
             {[ GOOGLE_API_KEY := str "secret" ]} in
  let request := {| question := str "Why?" |} in
  let prompt := prompt_before_context ++ join (str (nl ++ nl)) [str "chunk"]
                  ++ prompt_before_input ++ str "Why?" ++ prompt_after_input in
  (@serve E (ask_question request) w).1 =
    {| status_code := 200; content := [(str "answer", prompt)] |} /\
  faiss_index (@serve E (ask_question request) w).2
    = Some [(str "chunk", tt)] /\
  environ (@serve E (ask_question request) w).2 = environ w.
Proof.
  cbv zeta.
  apply (@ask_question_success (example_services None) _ _ [(str "chunk", tt)]
           (str "secret") unit_embeddings [str "chunk"]);
    [discriminate | reflexivity | vm_compute; reflexivity | discriminate
    | reflexivity | reflexivity | reflexivity | reflexivity].
Defined.

(** An instance of X13. *)
Lemma get_pdf_text_skips_unreadable_witness :
  let E := example_services None in
  @get_pdf_text E ([[Byte.x02]] ++ [] :: [[Byte.x02]])
  = @get_pdf_text E ([[Byte.x02]] ++ [[Byte.x02]]).
Proof.
  cbv zeta.
  apply (@get_pdf_text_skips_unreadable (example_services None) _ _ []
           (LibraryError (str "Cannot read an empty file"))).
  reflexivity.
Defined.

(** An instance of X14. *)
Lemma extract_pages_ignores_textless_witness :
  extract_pages ([Ok (Some (str "A"))] ++ Ok None :: [Ok (Some (str "B"))]) []
  = extract_pages ([Ok (Some (str "A"))] ++ [Ok (Some (str "B"))]) [].
Proof. apply extract_pages_ignores_textless. left. reflexivity. Defined.
